(** * Shallow embedding of src/todo_app_minimal.jsx

    The component keeps its state in React hooks ([tasks], [input],
    [editingId], [editingText]); every handler is modelled as a function
    from the current state to an [option] of its JS return value and the
    next state, [None] standing for a thrown exception.  JS strings are
    sequences of UTF-16 code units, values read from or written to
    localStorage are JSON values, and [JSON.stringify] / [JSON.parse] are
    modelled after the ECMAScript definitions. *)

From Stdlib Require Import ZArith List String Ascii Bool Lia.
Import ListNotations.
Open Scope Z_scope.
Set Warnings "-register-all".

(** ** JS strings *)

(** A JS string: its UTF-16 code units. *)
Definition jsstr := list Z.

Definition ascii_code (a : ascii) : Z :=
  match a with
  | Ascii b0 b1 b2 b3 b4 b5 b6 b7 =>
      Z.b2z b0 + 2 * (Z.b2z b1 + 2 * (Z.b2z b2 + 2 * (Z.b2z b3 + 2 * (Z.b2z b4
      + 2 * (Z.b2z b5 + 2 * (Z.b2z b6 + 2 * Z.b2z b7))))))
  end.

(** Source text literals (ASCII) as JS strings. *)
Fixpoint js (s : string) : jsstr :=
  match s with
  | EmptyString => []
  | String c r => ascii_code c :: js r
  end.

(** A literal in which each ['] stands for a double quote (JSON text). *)
Definition jq (s : string) : jsstr := map (fun c => if c =? 39 then 34 else c) (js s).

(** Every element is a 16-bit code unit. *)
Definition units_ok (s : jsstr) : Prop := Forall (fun c => 0 <= c < 65536) s.

Fixpoint str_eqb (a b : jsstr) : bool :=
  match a, b with
  | [], [] => true
  | x :: a', y :: b' => (x =? y) && str_eqb a' b'
  | _, _ => false
  end.

(** ECMAScript WhiteSpace and LineTerminator code points, which
    [String.prototype.trim] strips from both ends. *)
Definition is_js_space (c : Z) : bool :=
  (c =? 9) || (c =? 10) || (c =? 11) || (c =? 12) || (c =? 13) || (c =? 32)
  || (c =? 160) || (c =? 5760) || ((8192 <=? c) && (c <=? 8202))
  || (c =? 8232) || (c =? 8233) || (c =? 8239) || (c =? 8287)
  || (c =? 12288) || (c =? 65279).

Fixpoint trim_start (s : jsstr) : jsstr :=
  match s with
  | [] => []
  | c :: r => if is_js_space c then trim_start r else s
  end.

(** [s.trim()] *)
Definition trim (s : jsstr) : jsstr := rev (trim_start (rev (trim_start s))).

(** [s.slice(b, e)] for 0 <= b <= e. *)
Definition slice (b e : nat) (s : jsstr) : jsstr := firstn (e - b) (skipn b s).

(** ** [makeId]: [Date.now().toString(36) + Math.random().toString(36).slice(2, 7)] *)

(** Digit [d] (0 <= d < 36) of [Number.prototype.toString(36)]: 0-9 a-z. *)
Definition digit36 (d : Z) : Z := if d <? 10 then 48 + d else 87 + d.

(** The digits of [n >= 0] in base [b], most significant first, in front
    of [acc]; [fuel] bounds the number of digits. *)
Fixpoint radix_aux (b : Z) (fuel : nat) (n : Z) (acc : jsstr) : jsstr :=
  match fuel with
  | O => acc
  | S f =>
      let acc' := digit36 (n mod b) :: acc in
      if n <? b then acc' else radix_aux b f (n / b) acc'
  end.

(** [n.toString(b)] for an integer [n] and 2 <= b <= 36. *)
Definition int_to_string (b n : Z) : jsstr :=
  if n <? 0 then 45 :: radix_aux b (S (Z.to_nat (Z.log2 (- n)))) (- n) []
  else radix_aux b (S (Z.to_nat (Z.log2 n))) n [].

(** [n.toString(36)] for an integer [n] (Date.now() is an integer). *)
Definition to36 (n : Z) : jsstr := int_to_string 36 n.

(** [makeId] with its two nondeterministic reads made explicit: [now] is
    the value of [Date.now()], [rnd] the string [Math.random().toString(36)]
    (a floating-point rendering, taken as given). *)
Definition makeId (now : Z) (rnd : jsstr) : jsstr :=
  to36 now ++ slice 2 7 rnd.

(** ** [new Date().toISOString()] *)

(** Civil date (year, month, day) of a day count since 1970-01-01
    (proleptic Gregorian). *)
Definition civil_from_days (days : Z) : Z * Z * Z :=
  let z := days + 719468 in
  let era := z / 146097 in
  let doe := z - era * 146097 in
  let yoe := (doe - doe / 1460 + doe / 36524 - doe / 146096) / 365 in
  let y := yoe + era * 400 in
  let doy := doe - (365 * yoe + yoe / 4 - yoe / 100) in
  let mp := (5 * doy + 2) / 153 in
  let d := doy - (153 * mp + 2) / 5 + 1 in
  let m := if mp <? 10 then mp + 3 else mp - 9 in
  (if m <=? 2 then y + 1 else y, m, d).

(** Decimal digits of [n >= 0], zero-padded to [w] digits. *)
Fixpoint pad_digits (w : nat) (n : Z) : jsstr :=
  match w with
  | O => []
  | S w' => pad_digits w' (n / 10) ++ [48 + n mod 10]
  end.

(** Years 0..9999 print with four digits, others as +YYYYYY / -YYYYYY. *)
Definition iso_year (y : Z) : jsstr :=
  if (0 <=? y) && (y <=? 9999) then pad_digits 4 y
  else if y <? 0 then 45 :: pad_digits 6 (- y) else 43 :: pad_digits 6 y.

(** [toISOString] of the time value [t] (ms since the epoch); a time value
    beyond 8.64e15 ms is invalid and makes it throw a RangeError. *)
Definition toISOString (t : Z) : option jsstr :=
  if 8640000000000000 <? Z.abs t then None else
  let days := t / 86400000 in
  let ms := t mod 86400000 in
  let '(y, mo, d) := civil_from_days days in
  Some (iso_year y ++ [45] ++ pad_digits 2 mo ++ [45] ++ pad_digits 2 d
        ++ [84] ++ pad_digits 2 (ms / 3600000) ++ [58]
        ++ pad_digits 2 (ms / 60000 mod 60) ++ [58]
        ++ pad_digits 2 (ms / 1000 mod 60) ++ [46]
        ++ pad_digits 3 (ms mod 1000) ++ [90]).

(** ** JSON values and JS objects *)

(** A value that [JSON.parse] can produce.  A number is kept as the exact
    decimal [m * 10^e] it was written as (a JS number would round it to a
    double).  An object is the list of its own properties in the order
    OrdinaryOwnPropertyKeys enumerates them: array-index keys ascending,
    then the other keys in insertion order; [put] keeps that order. *)
Inductive json : Type :=
  | JNull
  | JBool (b : bool)
  | JNum (m e : Z)
  | JStr (s : jsstr)
  | JArr (l : list json)
  | JObj (props : list (jsstr * json)).

(** A JS value as the code handles it: [undefined] or a JSON value. *)
Inductive jsval : Type :=
  | Undef
  | Val (v : json).

Fixpoint all_digits (s : jsstr) : bool :=
  match s with
  | [] => true
  | c :: r => (48 <=? c) && (c <=? 57) && all_digits r
  end.

Fixpoint digits_value (acc : Z) (s : jsstr) : Z :=
  match s with
  | [] => acc
  | c :: r => digits_value (acc * 10 + (c - 48)) r
  end.

(** The array index a property key denotes: a canonical decimal numeral
    below 2^32 - 1. *)
Definition array_index (k : jsstr) : option Z :=
  match k with
  | [] => None
  | c :: r =>
      if all_digits k && (negb (c =? 48) || (match r with [] => true | _ => false end))
      then let i := digits_value 0 k in
           if i <? 4294967295 then Some i else None
      else None
  end.

Fixpoint lookup (k : jsstr) (m : list (jsstr * json)) : option json :=
  match m with
  | [] => None
  | (k', v) :: r => if str_eqb k k' then Some v else lookup k r
  end.

(** A new property: an array index goes before the first non-index key or
    larger index; any other key goes last. *)
Fixpoint insert_index (i : Z) (k : jsstr) (v : json) (m : list (jsstr * json))
  : list (jsstr * json) :=
  match m with
  | [] => [(k, v)]
  | (k', v') :: r =>
      match array_index k' with
      | Some j => if j <? i then (k', v') :: insert_index i k v r
                  else (k, v) :: m
      | None => (k, v) :: m
      end
  end.

Fixpoint replace (k : jsstr) (v : json) (m : list (jsstr * json))
  : list (jsstr * json) :=
  match m with
  | [] => []
  | (k', v') :: r => if str_eqb k k' then (k', v) :: r else (k', v') :: replace k v r
  end.

(** CreateDataProperty on an ordinary object: an existing key keeps its
    place and gets the new value. *)
Definition put (k : jsstr) (v : json) (m : list (jsstr * json))
  : list (jsstr * json) :=
  match lookup k m with
  | Some _ => replace k v m
  | None =>
      match array_index k with
      | Some i => insert_index i k v m
      | None => m ++ [(k, v)]
      end
  end.

(** ** [JSON.stringify] *)

Fixpoint join (l : list jsstr) : jsstr :=
  match l with
  | [] => []
  | [x] => x
  | x :: r => x ++ [44] ++ join r
  end.

Definition is_hi (c : Z) : bool := (55296 <=? c) && (c <=? 56319).
Definition is_lo (c : Z) : bool := (56320 <=? c) && (c <=? 57343).

(** UnicodeEscape: [\u] and four lower-case hex digits. *)
Definition hex4 (c : Z) : jsstr :=
  [92; 117; digit36 (c / 4096 mod 16); digit36 (c / 256 mod 16);
   digit36 (c / 16 mod 16); digit36 (c mod 16)].

(** QuoteJSONString on one code point that is not a surrogate pair. *)
Definition esc_unit (c : Z) : jsstr :=
  if c =? 8 then [92; 98] else if c =? 9 then [92; 116]
  else if c =? 10 then [92; 110] else if c =? 12 then [92; 102]
  else if c =? 13 then [92; 114] else if c =? 34 then [92; 34]
  else if c =? 92 then [92; 92]
  else if (c <? 32) || is_hi c || is_lo c then hex4 c
  else [c].

(** A surrogate pair is copied, a lone surrogate is escaped. *)
Fixpoint quote_units (s : jsstr) : jsstr :=
  match s with
  | [] => []
  | c :: r =>
      if is_hi c then
        match r with
        | d :: r' => if is_lo d then c :: d :: quote_units r'
                     else esc_unit c ++ quote_units r
        | [] => esc_unit c
        end
      else esc_unit c ++ quote_units r
  end.

Definition quote (s : jsstr) : jsstr := [34] ++ quote_units s ++ [34].

(** Strip trailing zeros of [m > 0] into the exponent. *)
Fixpoint normalize (fuel : nat) (m e : Z) : Z * Z :=
  match fuel with
  | O => (m, e)
  | S f => if (m mod 10 =? 0) then normalize f (m / 10) (e + 1) else (m, e)
  end.

Fixpoint zeros (n : nat) : jsstr :=
  match n with O => [] | S k => 48 :: zeros k end.

(** Number::toString(x) for x = m * 10^e, m > 0, from its digits [s]
    (k of them) and decimal exponent n = e + k. *)
Definition pos_num_to_string (m e : Z) : jsstr :=
  let '(m', e') := normalize (S (Z.to_nat (Z.log2 m))) m e in
  let s := int_to_string 10 m' in
  let k := Z.of_nat (List.length s) in
  let n := e' + k in
  let exp_part x := [101] ++ (if x <? 0 then [45] else [43])
                     ++ int_to_string 10 (Z.abs x) in
  if (k <=? n) && (n <=? 21) then s ++ zeros (Z.to_nat (n - k))
  else if (0 <? n) && (n <=? 21) then
    firstn (Z.to_nat n) s ++ [46] ++ skipn (Z.to_nat n) s
  else if (-6 <? n) && (n <=? 0) then [48; 46] ++ zeros (Z.to_nat (- n)) ++ s
  else match s with
       | [d] => [d] ++ exp_part (n - 1)
       | d :: r => [d; 46] ++ r ++ exp_part (n - 1)
       | [] => []
       end.

Definition num_to_string (m e : Z) : jsstr :=
  if m =? 0 then [48]
  else if m <? 0 then 45 :: pos_num_to_string (- m) e
  else pos_num_to_string m e.

(** [JSON.stringify(v)] without indentation. *)
Fixpoint stringify (v : json) : jsstr :=
  match v with
  | JNull => js "null"
  | JBool true => js "true"
  | JBool false => js "false"
  | JNum m e => num_to_string m e
  | JStr s => quote s
  | JArr l => [91] ++ join (map stringify l) ++ [93]
  | JObj m =>
      [123] ++ join (map (fun kv => quote (fst kv) ++ [58] ++ stringify (snd kv)) m)
      ++ [125]
  end.

(** ** [JSON.parse] *)

Definition is_json_ws (c : Z) : bool := (c =? 32) || (c =? 9) || (c =? 10) || (c =? 13).

Fixpoint skip_ws (s : jsstr) : jsstr :=
  match s with
  | [] => []
  | c :: r => if is_json_ws c then skip_ws r else s
  end.

Definition hex_val (c : Z) : option Z :=
  if (48 <=? c) && (c <=? 57) then Some (c - 48)
  else if (97 <=? c) && (c <=? 102) then Some (c - 87)
  else if (65 <=? c) && (c <=? 70) then Some (c - 55)
  else None.

Definition hex4_val (a b c d : Z) : option Z :=
  match hex_val a, hex_val b, hex_val c, hex_val d with
  | Some x, Some y, Some z, Some w => Some (((x * 16 + y) * 16 + z) * 16 + w)
  | _, _, _, _ => None
  end.

(** The single-character escapes of JSON strings. *)
Definition simple_escape (e : Z) : option Z :=
  if e =? 34 then Some 34 else if e =? 92 then Some 92
  else if e =? 47 then Some 47 else if e =? 98 then Some 8
  else if e =? 102 then Some 12 else if e =? 110 then Some 10
  else if e =? 114 then Some 13 else if e =? 116 then Some 9
  else None.

Definition cons_fst (u : Z) (o : option (jsstr * jsstr)) : option (jsstr * jsstr) :=
  match o with
  | Some (x, r) => Some (u :: x, r)
  | None => None
  end.

(** The body of a JSON string after its opening quote: its code units and
    the text after the closing quote. *)
Fixpoint pstr (s : jsstr) : option (jsstr * jsstr) :=
  match s with
  | [] => None
  | c :: r =>
      if c =? 34 then Some ([], r)
      else if c =? 92 then
        match r with
        | [] => None
        | e :: r' =>
            if e =? 117 then
              match r' with
              | a :: b :: c' :: d :: r'' =>
                  match hex4_val a b c' d with
                  | Some u => cons_fst u (pstr r'')
                  | None => None
                  end
              | _ => None
              end
            else match simple_escape e with
                 | Some u => cons_fst u (pstr r')
                 | None => None
                 end
        end
      else if c <? 32 then None
      else cons_fst c (pstr r)
  end.

Definition is_digit (c : Z) : bool := (48 <=? c) && (c <=? 57).

(** A maximal run of digits: its value, its length and the rest. *)
Fixpoint pdigits (s : jsstr) (acc : Z) (cnt : nat) : Z * nat * jsstr :=
  match s with
  | c :: r => if is_digit c then pdigits r (acc * 10 + (c - 48)) (S cnt)
              else (acc, cnt, s)
  | [] => (acc, cnt, s)
  end.

(** JSON number: -? (0 | [1-9][0-9]* ) (. [0-9]+)? ([eE] [+-]? [0-9]+)? *)
Definition pnumber (s : jsstr) : option (json * jsstr) :=
  let '(neg, s1) := match s with
                    | c :: r => if c =? 45 then (true, r) else (false, s)
                    | [] => (false, s)
                    end in
  let int_part :=
    match s1 with
    | c :: r => if c =? 48 then Some (0, r)
                else if is_digit c then
                  let '(v, _, r') := pdigits s1 0 O in Some (v, r')
                else None
    | [] => None
    end in
  match int_part with
  | None => None
  | Some (m0, s2) =>
      let frac :=
        match s2 with
        | c :: r => if c =? 46 then
                      let '(f, k, r') := pdigits r 0 O in
                      if (k =? O)%nat then None
                      else Some (m0 * 10 ^ Z.of_nat k + f, - Z.of_nat k, r')
                    else Some (m0, 0, s2)
        | [] => Some (m0, 0, s2)
        end in
      match frac with
      | None => None
      | Some (m1, e1, s3) =>
          let ex :=
            match s3 with
            | c :: r =>
                if (c =? 101) || (c =? 69) then
                  let '(sg, r1) := match r with
                                   | d :: r2 => if d =? 45 then (-1, r2)
                                                else if d =? 43 then (1, r2)
                                                else (1, r)
                                   | [] => (1, r)
                                   end in
                  let '(x, k, r') := pdigits r1 0 O in
                  if (k =? O)%nat then None else Some (sg * x, r')
                else Some (0, s3)
            | [] => Some (0, s3)
            end in
          match ex with
          | None => None
          | Some (x, s4) => Some (JNum (if neg then - m1 else m1) (e1 + x), s4)
          end
      end
  end.

(** [lit] is a prefix of [s]: the rest. *)
Fixpoint strip (lit s : jsstr) : option jsstr :=
  match lit, s with
  | [], _ => Some s
  | a :: l, b :: r => if a =? b then strip l r else None
  | _ :: _, [] => None
  end.

(** Recursive descent over the JSON grammar.  Every call consumes at least
    one code unit before the next one, so [length text + 1] of [fuel]
    never runs out. *)
Fixpoint pvalue (fuel : nat) (s : jsstr) : option (json * jsstr) :=
  match fuel with
  | O => None
  | S n =>
      match skip_ws s with
      | [] => None
      | c :: r =>
          if c =? 123 then
            match skip_ws r with
            | d :: r' => if d =? 125 then Some (JObj [], r')
                         else pmembers n (d :: r') []
            | [] => None
            end
          else if c =? 91 then
            match skip_ws r with
            | d :: r' =>
                if d =? 93 then Some (JArr [], r')
                else match pvalue n (d :: r') with
                     | Some (v, r1) => pelems n r1 [v]
                     | None => None
                     end
            | [] => None
            end
          else if c =? 34 then
            match pstr r with
            | Some (x, r') => Some (JStr x, r')
            | None => None
            end
          else if c =? 116 then
            match strip (js "rue") r with Some r' => Some (JBool true, r') | None => None end
          else if c =? 102 then
            match strip (js "alse") r with Some r' => Some (JBool false, r') | None => None end
          else if c =? 110 then
            match strip (js "ull") r with Some r' => Some (JNull, r') | None => None end
          else pnumber (c :: r)
      end
  end
(** After an array element: [, value] or the closing bracket. *)
with pelems (fuel : nat) (s : jsstr) (acc : list json) : option (json * jsstr) :=
  match fuel with
  | O => None
  | S n =>
      match skip_ws s with
      | c :: r =>
          if c =? 44 then
            match pvalue n r with
            | Some (v, r1) => pelems n r1 (acc ++ [v])
            | None => None
            end
          else if c =? 93 then Some (JArr acc, r)
          else None
      | [] => None
      end
  end
(** At a member [key : value] of an object, whitespace skipped. *)
with pmembers (fuel : nat) (s : jsstr) (acc : list (jsstr * json))
  : option (json * jsstr) :=
  match fuel with
  | O => None
  | S n =>
      match s with
      | c :: r =>
          if c =? 34 then
            match pstr r with
            | Some (k, r1) =>
                match skip_ws r1 with
                | d :: r2 =>
                    if d =? 58 then
                      match pvalue n r2 with
                      | Some (v, r3) =>
                          match skip_ws r3 with
                          | e :: r4 =>
                              if e =? 44 then pmembers n (skip_ws r4) (put k v acc)
                              else if e =? 125 then Some (JObj (put k v acc), r4)
                              else None
                          | [] => None
                          end
                      | None => None
                      end
                    else None
                | [] => None
                end
            | None => None
            end
          else None
      | [] => None
      end
  end.

(** [JSON.parse(text)]: [None] is the SyntaxError it throws. *)
Definition parse_json (text : jsstr) : option json :=
  match pvalue (S (List.length text)) text with
  | Some (v, r) => match skip_ws r with [] => Some v | _ => None end
  | None => None
  end.

(** ** JS operations on values *)

(** [v.id] / [v.text]: only these two keys are read by the component, and
    no primitive, array or Object.prototype has a property of that name;
    reading a property of [null] throws. *)
Definition prop (v : json) (k : jsstr) : option jsval :=
  match v with
  | JNull => None
  | JObj m => Some (match lookup k m with Some x => Val x | None => Undef end)
  | _ => Some Undef
  end.

Definition num_eqb (m1 e1 m2 e2 : Z) : bool :=
  let e := Z.min e1 e2 in
  m1 * 10 ^ (e1 - e) =? m2 * 10 ^ (e2 - e).

(** [a === b].  Objects and arrays are equal only to themselves (the same
    reference); this model does not track references and never equates
    them, so it departs from JS only for an id that is itself an object or
    an array. *)
Definition strict_eq (a b : jsval) : bool :=
  match a, b with
  | Undef, Undef => true
  | Val JNull, Val JNull => true
  | Val (JBool x), Val (JBool y) => Bool.eqb x y
  | Val (JNum m1 e1), Val (JNum m2 e2) => num_eqb m1 e1 m2 e2
  | Val (JStr x), Val (JStr y) => str_eqb x y
  | _, _ => false
  end.

(** The code points of a string, a surrogate pair being one. *)
Fixpoint code_points (s : jsstr) : list jsstr :=
  match s with
  | [] => []
  | c :: r =>
      if is_hi c then
        match r with
        | d :: r' => if is_lo d then [c; d] :: code_points r'
                     else [c] :: code_points r
        | [] => [[c]]
        end
      else [c] :: code_points r
  end.

(** [[...v]]: arrays and strings are iterable, anything else throws. *)
Definition spread_iter (v : json) : option (list json) :=
  match v with
  | JArr l => Some l
  | JStr s => Some (map JStr (code_points s))
  | _ => None
  end.

Definition index_key (i : nat) : jsstr := int_to_string 10 (Z.of_nat i).

Fixpoint indexed {A} (i : nat) (l : list A) : list (nat * A) :=
  match l with
  | [] => []
  | x :: r => (i, x) :: indexed (S i) r
  end.

(** The own enumerable properties copied by [{...v}], in order. *)
Definition spread_obj (v : json) : list (jsstr * json) :=
  match v with
  | JObj m => fold_left (fun acc kv => put (fst kv) (snd kv) acc) m []
  | JArr l => map (fun ix => (index_key (fst ix), snd ix)) (indexed O l)
  | JStr s => map (fun ix => (index_key (fst ix), JStr [snd ix])) (indexed O s)
  | _ => []
  end.

(** [arr.filter(f)] and [arr.map(f)] with a callback that may throw. *)
Fixpoint filter_opt (f : json -> option bool) (l : list json) : option (list json) :=
  match l with
  | [] => Some []
  | x :: r =>
      match f x, filter_opt f r with
      | Some b, Some r' => Some (if b then x :: r' else r')
      | _, _ => None
      end
  end.

Fixpoint map_opt (f : json -> option json) (l : list json) : option (list json) :=
  match l with
  | [] => Some []
  | x :: r =>
      match f x, map_opt f r with
      | Some y, Some r' => Some (y :: r')
      | _, _ => None
      end
  end.

(** ** The component state and its handlers *)

Definition STORAGE_KEY : jsstr := js "todo_minimal_v1".

(** The hook state; [writes] lists, oldest first, the values the persist
    effect passed to [localStorage.setItem(STORAGE_KEY, ...)] (a failing
    write is caught and only logged). *)
Record state : Type := mkState {
  tasks : json;
  input : jsstr;
  editingId : jsval;
  editingText : jsval;
  writes : list jsstr
}.

Definition initial_state : state :=
  mkState (JArr []) [] (Val JNull) (Val (JStr [])) [].

(** [setTasks(v)] followed by the persist effect: every [setTasks] call of
    the component stores a fresh array (never [Object.is] to the old one),
    so the [[tasks]] effect runs after the re-render and writes
    [JSON.stringify(v)]. *)
Definition set_tasks (v : json) (st : state) : state :=
  mkState v (input st) (editingId st) (editingText st)
          (writes st ++ [stringify v]).

Definition set_input (s : jsstr) (st : state) : state :=
  mkState (tasks st) s (editingId st) (editingText st) (writes st).

Definition set_editing (i : jsval) (t : jsval) (st : state) : state :=
  mkState (tasks st) (input st) i t (writes st).

(** [addTask]; [now] and [rnd] are the reads of [makeId], [now2] the time
    read by [new Date()]. *)
Definition addTask (now : Z) (rnd : jsstr) (now2 : Z) (st : state)
  : option (jsval * state) :=
  let text := trim (input st) in
  match text with
  | [] => Some (Undef, st)
  | _ =>
      match toISOString now2 with
      | None => None
      | Some iso =>
          let newTask := JObj [(js "id", JStr (makeId now rnd));
                               (js "text", JStr text);
                               (js "created_at", JStr iso)] in
          match spread_iter (tasks st) with
          | Some prev => Some (Undef, set_input [] (set_tasks (JArr (prev ++ [newTask])) st))
          | None => None
          end
      end
  end.

(** [deleteTask(id)]: [prev.filter(t => t.id !== id)]. *)
Definition deleteTask (id : jsval) (st : state) : option (jsval * state) :=
  match tasks st with
  | JArr prev =>
      match filter_opt (fun t => match prop t (js "id") with
                                 | Some i => Some (negb (strict_eq i id))
                                 | None => None
                                 end) prev with
      | Some l => Some (Undef, set_tasks (JArr l) st)
      | None => None
      end
  | _ => None
  end.

(** [startEdit(task)] *)
Definition startEdit (task : json) (st : state) : option (jsval * state) :=
  match prop task (js "id"), prop task (js "text") with
  | Some i, Some x => Some (Undef, set_editing i x st)
  | _, _ => None
  end.

(** [saveEdit(id)]: [editingText.trim()] throws unless it is a string. *)
Definition saveEdit (id : jsval) (st : state) : option (jsval * state) :=
  match editingText st with
  | Val (JStr s) =>
      let text := trim s in
      match text with
      | [] => Some (Undef, set_editing (Val JNull) (Val (JStr [])) st)
      | _ =>
          match tasks st with
          | JArr prev =>
              match map_opt (fun t => match prop t (js "id") with
                                      | Some i => Some (if strict_eq i id
                                                        then JObj (put (js "text") (JStr text) (spread_obj t))
                                                        else t)
                                      | None => None
                                      end) prev with
              | Some l => Some (Undef, set_editing (Val JNull) (Val (JStr []))
                                                   (set_tasks (JArr l) st))
              | None => None
              end
          | _ => None
          end
      end
  | _ => None
  end.

(** [onEditKeyDown] with Escape. *)
Definition escapeEdit (st : state) : option (jsval * state) :=
  Some (Undef, set_editing (Val JNull) (Val (JStr [])) st).

(** The "Vider" button: [setTasks([])]. *)
Definition clear (st : state) : option (jsval * state) :=
  Some (Undef, set_tasks (JArr []) st).

(** What [localStorage.getItem(STORAGE_KEY)] does on mount. *)
Inductive stored : Type :=
  | Absent
  | Stored (raw : jsstr)
  | ReadThrows.

(** The state after mounting: the load effect runs first and may call
    [setTasks(JSON.parse(raw))] (a throw is caught and logged); the persist
    effect of the first render then writes the initial [[]], and the
    re-render caused by the load writes the loaded value. *)
Definition mount (r : stored) : state :=
  let loaded := match r with
                | Stored raw => match raw with [] => None | _ => parse_json raw end
                | _ => None
                end in
  let st1 := mkState (JArr []) [] (Val JNull) (Val (JStr [])) [stringify (JArr [])] in
  match loaded with
  | Some v => set_tasks v st1
  | None => st1
  end.

(** The store operations of the spec, as the UI performs them: [add(s)]
    types [s] into the input then runs [addTask]; [commitEdit(id, raw)]
    types [raw] into the edit field then runs [saveEdit(id)]. *)
Definition add (s : jsstr) (now : Z) (rnd : jsstr) (now2 : Z) (st : state)
  : option (jsval * state) :=
  addTask now rnd now2 (set_input s st).

Definition commitEdit (id : jsval) (raw : jsstr) (st : state) : option (jsval * state) :=
  saveEdit id (set_editing (editingId st) (Val (JStr raw)) st).

(** ** Task records *)

(** A task as [addTask] creates it: [{ id, text, created_at }]. *)
Record Task : Type := mkTask {
  task_id : jsstr;
  task_text : jsstr;
  task_created_at : jsstr
}.

Definition task_json (t : Task) : json :=
  JObj [(js "id", JStr (task_id t)); (js "text", JStr (task_text t));
        (js "created_at", JStr (task_created_at t))].

Definition list_json (l : list Task) : json := JArr (map task_json l).

(** The state with task list [l] and the other hooks as in [st]. *)
Definition with_tasks (l : list Task) (st : state) : state :=
  mkState (list_json l) (input st) (editingId st) (editingText st) (writes st).

Definition then_ (o : option (jsval * state)) (f : state -> option (jsval * state))
  : option (jsval * state) :=
  match o with Some (_, st) => f st | None => None end.

Definition scenario : option (jsval * state) :=
  then_ (add (js "Buy milk") 1704067200000 (js "0.4fzyo82mvyr") 1704067200000 initial_state)
  (fun st1 => then_ (add (js "  ") 1704067200001 (js "0.abc") 1704067200001 st1)
  (fun st2 => then_ (startEdit (JObj [(js "id", JStr (js "lqu5m2o04fzyo"));
                                      (js "text", JStr (js "Buy milk"));
                                      (js "created_at", JStr (js "2024-01-01T00:00:00.000Z"))]) st2)
  (fun st3 => then_ (commitEdit (Val (JStr (js "lqu5m2o04fzyo"))) (js "Buy oat milk") st3)
  (fun st4 => deleteTask (Val (JStr (js "lqu5m2o04fzyo"))) st4)))).

(** The task with id [x] after [saveEdit] committed the text [v]. *)
Definition edit_task (x v : jsstr) (t : Task) : Task :=
  if str_eqb (task_id t) x then mkTask (task_id t) v (task_created_at t) else t.

(** ** Concrete inputs *)

Definition task_a : Task := mkTask (js "a") (js "X") (js "2024-01-01T00:00:00Z").

(** The state while [task_a] is being edited with text [X]. *)
Definition editing_a : state :=
  set_editing (Val (JStr (js "a"))) (Val (JStr (js "X"))) (with_tasks [task_a] initial_state).

Definition milk : Task :=
  mkTask (js "lqu5m2o04fzyo") (js "Buy milk") (js "2024-01-01T00:00:00.000Z").

(** ** Reading ids back *)

(** Reading a digit written by [digit36]. *)
Definition digit_val (c : Z) : Z := if c <? 58 then c - 48 else c - 87.

Fixpoint of_radix (b : Z) (s : jsstr) : Z :=
  match s with
  | [] => 0
  | c :: r => digit_val c * b ^ Z.of_nat (List.length r) + of_radix b r
  end.

(** The three fields of a task are sequences of 16-bit code units. *)
Definition task_units_ok (t : Task) : Prop :=
  units_ok (task_id t) /\ units_ok (task_text t) /\ units_ok (task_created_at t).

(** Two records with id [a]: one with a blank text and no [created_at]. *)
Definition bad_store : jsstr :=
  jq "[{'id':'a','text':'  '},{'id':'a','text':'X','created_at':'t'}]".

Definition bad_tasks : json :=
  JArr [JObj [(js "id", JStr (js "a")); (js "text", JStr (js "  "))];
        JObj [(js "id", JStr (js "a")); (js "text", JStr (js "X"));
              (js "created_at", JStr (js "t"))]].

(** ** Keyboard handlers *)

(** [onInputKeyDown(e)] with [e.key = key]. *)
Definition onInputKeyDown (key : jsstr) (now : Z) (rnd : jsstr) (now2 : Z) (st : state)
  : option (jsval * state) :=
  if str_eqb key (js "Enter")
  then then_ (addTask now rnd now2 st) (fun st' => Some (Undef, st'))
  else Some (Undef, st).

(** [onEditKeyDown(e, id)] with [e.key = key]: the Enter test, then the
    Escape test on the state it left. *)
Definition onEditKeyDown (key : jsstr) (id : jsval) (st : state) : option (jsval * state) :=
  then_ (if str_eqb key (js "Enter") then saveEdit id st else Some (Undef, st))
        (fun st1 => if str_eqb key (js "Escape") then escapeEdit st1 else Some (Undef, st1)).

(** ** Rendering of the list *)

(** [l.map(f)] with a callback that may throw. *)
Fixpoint mapM {A B} (f : A -> option B) (l : list A) : option (list B) :=
  match l with
  | [] => Some []
  | x :: r =>
      match f x, mapM f r with
      | Some y, Some r' => Some (y :: r')
      | _, _ => None
      end
  end.

(** What an [<li>] of a task shows: the edit input with [value={editingText}],
    or the span with [{task.text}]. *)
Inductive row : Type :=
  | REdit (value : jsval)
  | RView (text : jsval).

(** Whether React accepts the value as a child: an object, also inside an
    array, makes it throw. *)
Fixpoint renderable (v : json) : bool :=
  match v with
  | JObj _ => false
  | JArr l => forallb renderable l
  | _ => true
  end.

Definition renderable_val (v : jsval) : bool :=
  match v with
  | Undef => true
  | Val x => renderable x
  end.

(** Whether converting the value to a string succeeds: an object with an
    own [toString] property (never callable in parsed JSON) has no usable
    [toString] nor [valueOf] and throws; arrays convert their elements. *)
Fixpoint string_ok (v : json) : bool :=
  match v with
  | JObj m => match lookup (js "toString") m with Some _ => false | None => true end
  | JArr l => forallb string_ok l
  | _ => true
  end.

Definition string_ok_val (v : jsval) : bool :=
  match v with
  | Undef => true
  | Val x => string_ok x
  end.

(** One row of [tasks.map(task => ...)]: [key={task.id}] reads [task.id] (a
    [null] task throws) and converts it to a string; [editingId === task.id]
    picks the edit input, whose [value={editingText}] and [aria-label]
    template convert [editingText] and [task.text] to strings, or the span
    showing [{task.text}] as a child, with [task.text] also in the buttons'
    [aria-label] templates. *)
Definition render_row (editingId editingText : jsval) (task : json) : option row :=
  match prop task (js "id"), prop task (js "text") with
  | Some i, Some x =>
      if negb (string_ok_val i) then None
      else if strict_eq editingId i then
        if string_ok_val editingText && string_ok_val x then Some (REdit editingText) else None
      else if string_ok_val x && renderable_val x then Some (RView x) else None
  | _, _ => None
  end.

(** The list part of the page: the [Total: {tasks.length}] counter, the rows,
    and whether the empty-list item ([tasks.length === 0]) is shown.
    [tasks.map] is a function only on arrays (a parsed [map] property is
    never callable) and [null.length] throws, so any other value of [tasks]
    makes rendering throw. *)
Definition view (st : state) : option (jsstr * list row * bool) :=
  match tasks st with
  | JArr l =>
      match mapM (render_row (editingId st) (editingText st)) l with
      | Some rows => Some (int_to_string 10 (Z.of_nat (List.length l)), rows,
                           Nat.eqb (List.length l) 0)
      | None => None
      end
  | _ => None
  end.

(** ** The event wiring of the page *)

(** The task object [tasks.map] hands to the handlers of row [i]. *)
Definition task_at (st : state) (i : nat) : option json :=
  match tasks st with
  | JArr l => nth_error l i
  | _ => None
  end.

(** One handler run by a user action on the rendered page; a handler that
    throws changes nothing and is left out.  Strings typed by the user are
    JS strings, and so is [Math.random().toString(36)].  An edit row
    ([editingId === task.id]) offers its input's [onChange], [onKeyDown] and
    [onBlur]; a display row offers [startEdit(task)] (double click, Enter on
    the span, the edit button) and [deleteTask(task.id)]; the span's
    [onKeyDown] with another key does nothing. *)
Inductive fires : state -> state -> Prop :=
  | fire_input (v : jsstr) (st : state) :
      units_ok v -> fires st (set_input v st)
  | fire_input_key (key : jsstr) (now : Z) (rnd : jsstr) (now2 : Z) (st st' : state) (r : jsval) :
      units_ok rnd -> onInputKeyDown key now rnd now2 st = Some (r, st') -> fires st st'
  | fire_add_button (now : Z) (rnd : jsstr) (now2 : Z) (st st' : state) (r : jsval) :
      units_ok rnd -> addTask now rnd now2 st = Some (r, st') -> fires st st'
  | fire_clear_button (st st' : state) (r : jsval) :
      clear st = Some (r, st') -> fires st st'
  | fire_edit_change (i : nat) (t : json) (id : jsval) (v : jsstr) (st : state) :
      task_at st i = Some t -> prop t (js "id") = Some id ->
      strict_eq (editingId st) id = true -> units_ok v ->
      fires st (set_editing (editingId st) (Val (JStr v)) st)
  | fire_edit_key (i : nat) (t : json) (id : jsval) (key : jsstr) (st st' : state) (r : jsval) :
      task_at st i = Some t -> prop t (js "id") = Some id ->
      strict_eq (editingId st) id = true ->
      onEditKeyDown key id st = Some (r, st') -> fires st st'
  | fire_edit_blur (i : nat) (t : json) (id : jsval) (st st' : state) (r : jsval) :
      task_at st i = Some t -> prop t (js "id") = Some id ->
      strict_eq (editingId st) id = true ->
      saveEdit id st = Some (r, st') -> fires st st'
  | fire_start_edit (i : nat) (t : json) (id : jsval) (st st' : state) (r : jsval) :
      task_at st i = Some t -> prop t (js "id") = Some id ->
      strict_eq (editingId st) id = false ->
      startEdit t st = Some (r, st') -> fires st st'
  | fire_delete (i : nat) (t : json) (id : jsval) (st st' : state) (r : jsval) :
      task_at st i = Some t -> prop t (js "id") = Some id ->
      strict_eq (editingId st) id = false ->
      deleteTask id st = Some (r, st') -> fires st st'.

(** Handlers exist only on a page that rendered. *)
Definition ui_step (st st' : state) : Prop :=
  (exists out, view st = Some out) /\ fires st st'.

(** The value [localStorage] holds after the writes of [st] (every write
    accepted). *)
Definition last_write (st : state) : jsstr := last (writes st) [].

(** The states of the page over its life: the first load on an empty
    storage, user actions, and reloads reading what was stored last. *)
Inductive session : state -> Prop :=
  | session_fresh : session (mount Absent)
  | session_step (st st' : state) : session st -> ui_step st st' -> session st'
  | session_reload (st : state) : session st -> session (mount (Stored (last_write st))).

(** A task as the page creates and edits them: a JS string in each field
    and a text that is non-empty with no white space at either end. *)
Definition task_ok (t : Task) : Prop :=
  task_units_ok t /\ task_text t <> [] /\ trim (task_text t) = task_text t.

(** The invariant of a session. *)
Definition good (st : state) : Prop :=
  (exists l, tasks st = list_json l /\ Forall task_ok l)
  /\ units_ok (input st)
  /\ (exists s, editingText st = Val (JStr s) /\ units_ok s)
  /\ last_write st = stringify (tasks st).

(** The [(id, created_at)] pairs of a task list. *)
Definition keys (l : list Task) : list (jsstr * jsstr) :=
  map (fun t => (task_id t, task_created_at t)) l.

Inductive subseq {A : Type} : list A -> list A -> Prop :=
  | subseq_nil : subseq [] []
  | subseq_skip (x : A) (l1 l2 : list A) : subseq l1 l2 -> subseq l1 (x :: l2)
  | subseq_keep (x : A) (l1 l2 : list A) : subseq l1 l2 -> subseq (x :: l1) (x :: l2).

(** Leading white space absent. *)
Definition no_lead (s : jsstr) : Prop :=
  match s with
  | [] => True
  | c :: _ => is_js_space c = false
  end.

(** A first visit: typing a task, then clicking the add button. *)
Definition typed : state := set_input (js "Buy milk") (mount Absent).

Definition after_add : state :=
  match addTask 1704067200000 (js "0.4fzyo82mvyr") 1704067200000 typed with
  | Some (_, st) => st
  | None => typed
  end.

(** A second task added on the same visit, then the first one opened for
    editing (its row's edit button). *)
Definition typed2 : state := set_input (js "Eggs") after_add.

Definition after_add2 : state :=
  match addTask 1704067200001 (js "0.abcdefgh") 1704067200001 typed2 with
  | Some (_, st) => st
  | None => typed2
  end.

Definition first_task : json :=
  match task_at after_add2 0 with Some t => t | None => JNull end.

Definition second_task : json :=
  match task_at after_add2 1 with Some t => t | None => JNull end.

Definition editing2 : state :=
  match startEdit first_task after_add2 with
  | Some (_, st) => st
  | None => after_add2
  end.

(** Deleting the second task while the first is being edited. *)
Definition after_delete2 : state :=
  match deleteTask (Val (JStr (makeId 1704067200001 (js "0.abcdefgh")))) editing2 with
  | Some (_, st) => st
  | None => editing2
  end.

(** * Properties *)

(** ** Examples *)

Example toISOString_epoch :
  toISOString 1704067200000 = Some (js "2024-01-01T00:00:00.000Z").
Proof. reflexivity. Qed.

Example to36_ex : to36 1704067200000 = js "lqu5m2o0".
Proof. reflexivity. Qed.

Example stringify_ex :
  stringify (JArr [JObj [(js "id", JStr (js "a")); (js "n", JNum 15 (-1))]])
  = jq "[{'id':'a','n':1.5}]".
Proof. reflexivity. Qed.

Example parse_ex :
  parse_json (jq " [ {'b':1, '2': -0.5e1, 'b': [true,null]} , 'x\n' ] ")
  = Some (JArr [JObj [(js "2", JNum (-5) 0); (js "b", JArr [JBool true; JNull])];
                JStr [120; 10]]).
Proof. reflexivity. Qed.

Example parse_bad : parse_json (js "[1,]") = None.
Proof. reflexivity. Qed.

Example scenario_ends_empty :
  option_map (fun r => tasks (snd r)) scenario = Some (JArr []).
Proof. reflexivity. Qed.

(** ** Helper lemmas *)

Lemma str_eqb_eq (a b : jsstr) : str_eqb a b = true <-> a = b.
Proof.
  revert b; induction a as [|x a IH]; intros [|y b]; simpl; try (split; congruence).
  rewrite andb_true_iff, Z.eqb_eq, IH; split.
  - intros [-> ->]; reflexivity.
  - intros H; injection H; auto.
Qed.

Lemma str_eqb_refl (a : jsstr) : str_eqb a a = true.
Proof. apply str_eqb_eq; reflexivity. Qed.

Lemma prop_task_id (t : Task) :
  prop (task_json t) (js "id") = Some (Val (JStr (task_id t))).
Proof. reflexivity. Qed.

(** The [t => t.id !== id] callback of [deleteTask] on task records. *)
Lemma filter_opt_tasks (x : jsstr) (l : list Task) :
  filter_opt (fun t => match prop t (js "id") with
                       | Some i => Some (negb (strict_eq i (Val (JStr x))))
                       | None => None
                       end) (map task_json l)
  = Some (map task_json (filter (fun t => negb (str_eqb (task_id t) x)) l)).
Proof.
  induction l as [|t l IH]; [reflexivity|].
  cbn [map filter filter_opt]; rewrite prop_task_id, IH.
  change (strict_eq (Val (JStr (task_id t))) (Val (JStr x))) with (str_eqb (task_id t) x).
  destruct (str_eqb (task_id t) x); reflexivity.
Qed.

Lemma filter_idem {A} (f : A -> bool) (l : list A) :
  filter f (filter f l) = filter f l.
Proof.
  induction l as [|a l IH]; [reflexivity|].
  simpl; destruct (f a) eqn:E; simpl; rewrite ?E, IH; reflexivity.
Qed.

(** [{...t, text}] on a task record. *)
Lemma spread_task_text (t : Task) (v : jsstr) :
  JObj (put (js "text") (JStr v) (spread_obj (task_json t)))
  = task_json (mkTask (task_id t) v (task_created_at t)).
Proof. reflexivity. Qed.

(** The [prev.map(...)] callback of [saveEdit] on task records. *)
Lemma map_opt_tasks (x v : jsstr) (l : list Task) :
  map_opt (fun t => match prop t (js "id") with
                    | Some i => Some (if strict_eq i (Val (JStr x))
                                      then JObj (put (js "text") (JStr v) (spread_obj t))
                                      else t)
                    | None => None
                    end) (map task_json l)
  = Some (map task_json (map (edit_task x v) l)).
Proof.
  induction l as [|t l IH]; [reflexivity|].
  cbn [map map_opt]; rewrite prop_task_id, IH.
  change (strict_eq (Val (JStr (task_id t))) (Val (JStr x))) with (str_eqb (task_id t) x).
  rewrite spread_task_text; unfold edit_task.
  destruct (str_eqb (task_id t) x); reflexivity.
Qed.

(** ** C1: add *)

(** C1 (amended).  [add(s)] returns [undefined] in every case.  If
    [trim(s)] is empty only the typed input changes and the task list is
    the same; otherwise exactly one task, with id [makeId], text [trim(s)]
    and the ISO creation time, is appended at the end, so the list grows
    by exactly one. *)
Theorem add_appends_trimmed (l : list Task) (st : state) (s : jsstr)
    (now : Z) (rnd : jsstr) (now2 : Z)
    (Hnow2 : Z.abs now2 <= 8640000000000000) :
  (trim s = [] ->
     add s now rnd now2 (with_tasks l st) = Some (Undef, set_input s (with_tasks l st)))
  /\ (trim s <> [] ->
      exists iso, toISOString now2 = Some iso /\
      let t := mkTask (makeId now rnd) (trim s) iso in
      add s now rnd now2 (with_tasks l st)
      = Some (Undef, set_input [] (set_tasks (list_json (l ++ [t]))
                                            (set_input s (with_tasks l st))))
      /\ List.length (l ++ [t]) = S (List.length l)).
Proof.
  assert (Hiso : exists iso, toISOString now2 = Some iso).
  { unfold toISOString.
    destruct (8640000000000000 <? Z.abs now2) eqn:E; [apply Z.ltb_lt in E; lia|].
    destruct (civil_from_days (now2 / 86400000)) as [[y mo] d]; eexists; reflexivity. }
  destruct Hiso as [iso Hiso].
  unfold add, addTask; cbn [input set_input].
  split.
  - intros ->; reflexivity.
  - intros Hne; exists iso; split; [exact Hiso|].
    destruct (trim s) as [|c r] eqn:Et; [congruence|].
    rewrite Hiso; cbn [tasks set_input with_tasks list_json spread_iter].
    split.
    + unfold list_json; rewrite map_app; reflexivity.
    + rewrite length_app; simpl; lia.
Qed.

(** ** C2: delete *)

(** C2 (amended).  [deleteTask(id)] returns [undefined]; the new list keeps,
    in their order, exactly the tasks whose id differs from [id] (every
    task with that id is removed), and a second [deleteTask(id)] leaves
    that list unchanged. *)
Theorem delete_removes_matching (l : list Task) (st : state) (x : jsstr) :
  let l' := filter (fun t => negb (str_eqb (task_id t) x)) l in
  deleteTask (Val (JStr x)) (with_tasks l st)
  = Some (Undef, set_tasks (list_json l') (with_tasks l st))
  /\ (forall t, In t l' <-> In t l /\ task_id t <> x)
  /\ deleteTask (Val (JStr x)) (set_tasks (list_json l') (with_tasks l st))
     = Some (Undef, set_tasks (list_json l') (set_tasks (list_json l') (with_tasks l st))).
Proof.
  intros l'.
  assert (Hidem : filter (fun t => negb (str_eqb (task_id t) x)) l' = l').
  { unfold l'; apply filter_idem. }
  split; [|split].
  - unfold deleteTask; cbn [tasks with_tasks list_json].
    rewrite filter_opt_tasks; reflexivity.
  - intros t; unfold l'; rewrite filter_In, negb_true_iff.
    split; intros [Hin H]; split; auto.
    + intros E; subst; rewrite str_eqb_refl in H; discriminate.
    + destruct (str_eqb (task_id t) x) eqn:E; auto.
      apply str_eqb_eq in E; contradiction.
  - unfold deleteTask; cbn [tasks set_tasks list_json].
    rewrite filter_opt_tasks, Hidem; reflexivity.
Qed.

(** C1 (counterexample).  [add("Buy milk")] creates the task but returns
    [undefined], not the created task. *)
Lemma add_returns_undefined :
  add (js "Buy milk") 1704067200000 (js "0.4fzyo82mvyr") 1704067200000 initial_state
  = Some (Undef, set_input [] (set_tasks (list_json [milk])
                                         (set_input (js "Buy milk") initial_state)))
  /\ ~ (exists st', add (js "Buy milk") 1704067200000 (js "0.4fzyo82mvyr") 1704067200000
                        initial_state = Some (Val (task_json milk), st')).
Proof.
  split; [reflexivity|].
  intros [st' H]; vm_compute in H; discriminate.
Qed.

(** C2 (counterexample).  [deleteTask] returns [undefined], not [true],
    when it removes a task. *)
Lemma delete_returns_undefined :
  deleteTask (Val (JStr (js "a"))) (with_tasks [task_a] initial_state)
  = Some (Undef, set_tasks (JArr []) (with_tasks [task_a] initial_state))
  /\ ~ (exists st', deleteTask (Val (JStr (js "a"))) (with_tasks [task_a] initial_state)
                    = Some (Val (JBool true), st')).
Proof.
  split; [reflexivity|].
  intros [st' H]; vm_compute in H; discriminate.
Qed.

(** ** C3: commitEdit *)

(** C3 (amended).  [commitEdit(id, raw)] returns [undefined] and always
    clears the editing pointer, whether or not a task has that id.  If
    [trim(raw)] is empty the task list is unchanged and nothing is
    persisted (the edit is a cancel, never a delete); otherwise every task
    with that id gets the text [trim(raw)] and the others are unchanged. *)
Theorem commitEdit_trims (l : list Task) (st : state) (x raw : jsstr) :
  (trim raw = [] ->
     exists st', commitEdit (Val (JStr x)) raw (with_tasks l st) = Some (Undef, st')
       /\ tasks st' = list_json l /\ editingId st' = Val JNull
       /\ writes st' = writes st)
  /\ (trim raw <> [] ->
     exists st', commitEdit (Val (JStr x)) raw (with_tasks l st) = Some (Undef, st')
       /\ tasks st' = list_json (map (edit_task x (trim raw)) l)
       /\ editingId st' = Val JNull).
Proof.
  unfold commitEdit, saveEdit; cbn [editingText set_editing].
  split.
  - intros Ht; rewrite Ht; eexists; repeat split.
  - intros Ht; destruct (trim raw) as [|c r] eqn:E; [congruence|].
    cbn [tasks set_editing with_tasks list_json].
    rewrite <- E, map_opt_tasks; eexists; repeat split.
Qed.

(** C3 (counterexample).  Committing an edit of an existing task returns
    [undefined], not [true]. *)
Lemma commitEdit_returns_undefined :
  ~ (exists st', commitEdit (Val (JStr (js "a"))) (js "Y") editing_a
                 = Some (Val (JBool true), st')).
Proof. intros [st' H]; vm_compute in H; discriminate. Qed.

(** ** C4: clear *)

(** C4 (amended).  The "Vider" button empties the task list from any state
    and leaves the editing pointer as it was. *)
Theorem clear_empties (st : state) :
  exists st', clear st = Some (Undef, st') /\ tasks st' = JArr []
    /\ editingId st' = editingId st.
Proof. eexists; repeat split. Qed.

(** C4 (counterexample).  Clearing while [task_a] is edited leaves the
    pointer on its id instead of [null]. *)
Lemma clear_keeps_editing :
  exists st', clear editing_a = Some (Undef, st') /\ tasks st' = JArr []
    /\ editingId st' = Val (JStr (js "a")) /\ editingId st' <> Val JNull.
Proof. eexists; split; [reflexivity|]; repeat split; discriminate. Qed.

(** ** C6: ids *)

Lemma digit_val_digit36 (d : Z) : 0 <= d < 36 -> digit_val (digit36 d) = d.
Proof.
  intros Hd; unfold digit36, digit_val.
  destruct (d <? 10) eqn:E1; [apply Z.ltb_lt in E1 | apply Z.ltb_ge in E1];
  [rewrite (proj2 (Z.ltb_lt _ 58)) by lia; lia|].
  rewrite (proj2 (Z.ltb_ge _ 58)) by lia; lia.
Qed.

Lemma radix_aux_value (b : Z) (f : nat) :
  2 <= b <= 36 ->
  forall n acc, 0 <= n < 2 ^ Z.of_nat f ->
  of_radix b (radix_aux b f n acc) = n * b ^ Z.of_nat (List.length acc) + of_radix b acc.
Proof.
  intros Hb; induction f as [|f IH]; intros n acc Hn.
  - simpl in Hn; assert (n = 0) by lia; subst; reflexivity.
  - cbn [radix_aux].
    assert (Hm : 0 <= n mod b < b) by (apply Z.mod_pos_bound; lia).
    assert (Hacc : of_radix b (digit36 (n mod b) :: acc)
                   = n mod b * b ^ Z.of_nat (List.length acc) + of_radix b acc).
    { cbn [of_radix]; rewrite digit_val_digit36 by lia; reflexivity. }
    destruct (n <? b) eqn:E.
    + apply Z.ltb_lt in E; rewrite Hacc, Z.mod_small by lia; reflexivity.
    + apply Z.ltb_ge in E.
      rewrite IH.
      * rewrite Hacc; cbn [List.length]; rewrite Nat2Z.inj_succ, Z.pow_succ_r by lia.
        rewrite (Z.div_mod n b) at 3 by lia; ring.
      * split; [apply Z.div_pos; lia|].
        rewrite Nat2Z.inj_succ, Z.pow_succ_r in Hn by lia.
        apply Z.div_lt_upper_bound; [lia|]; assert (0 <= 2 ^ Z.of_nat f) by (apply Z.pow_nonneg; lia); nia.
Qed.

Lemma of_radix_to36 (n : Z) : 0 <= n -> of_radix 36 (to36 n) = n.
Proof.
  intros Hn; unfold to36, int_to_string.
  rewrite (proj2 (Z.ltb_ge n 0)) by lia.
  assert (Hf : 0 <= n < 2 ^ Z.of_nat (S (Z.to_nat (Z.log2 n)))).
  { rewrite Nat2Z.inj_succ, Z2Nat.id by (apply Z.log2_nonneg).
    split; [lia|].
    destruct (Z.eq_dec n 0) as [->|Hnz]; [simpl; lia|].
    destruct (Z.log2_spec n) as [_ Hs]; [lia|].
    rewrite Z.pow_succ_r in * by (apply Z.log2_nonneg); lia. }
  rewrite (radix_aux_value 36 _ ltac:(lia) n [] Hf); simpl; lia.
Qed.

Lemma app_same_length (a b c d : jsstr) :
  List.length a = List.length c -> a ++ b = c ++ d -> a = c /\ b = d.
Proof.
  revert c; induction a as [|x a IH]; intros [|y c] Hl H; simpl in *;
    try discriminate; auto.
  injection H as -> H; destruct (IH c) as [-> ->]; auto.
Qed.

(** C6 (amended).  An id is [Date.now().toString(36)] followed by the
    random suffix [Math.random().toString(36).slice(2, 7)]: two ids whose
    timestamp strings have the same length (any two instants between 1972
    and 2059) are equal exactly when both the timestamps and the suffixes
    are equal, so distinct ids are likely but not guaranteed. *)
Theorem makeId_eq_iff (t1 t2 : Z) (r1 r2 : jsstr)
    (H1 : 0 <= t1) (H2 : 0 <= t2)
    (Hlen : List.length (to36 t1) = List.length (to36 t2)) :
  makeId t1 r1 = makeId t2 r2 <-> t1 = t2 /\ slice 2 7 r1 = slice 2 7 r2.
Proof.
  unfold makeId; split.
  - intros H; destruct (app_same_length _ _ _ _ Hlen H) as [Ht Hr]; split; auto.
    rewrite <- (of_radix_to36 t1 H1), <- (of_radix_to36 t2 H2), Ht; reflexivity.
  - intros [-> ->]; reflexivity.
Qed.

Lemma makeId_eq_iff_witness :
  (0 <= 1704067200000 /\ 0 <= 1704067200001
   /\ List.length (to36 1704067200000) = List.length (to36 1704067200001)) /\
  (makeId 1704067200000 (js "0.4fzyo82mvyr") = makeId 1704067200001 (js "0.4fzyo82mvyr")
   <-> 1704067200000 = 1704067200001
       /\ slice 2 7 (js "0.4fzyo82mvyr") = slice 2 7 (js "0.4fzyo82mvyr")).
Proof.
  split; [split; [lia|split; [lia|reflexivity]]|].
  apply makeId_eq_iff; [lia|lia|reflexivity].
Defined.

(** C6 (counterexample).  Two [add] calls in the same millisecond whose
    random draws agree on the suffix create two tasks with the same id. *)
Lemma add_twice_same_id :
  option_map (fun r => tasks (snd r))
    (then_ (add (js "a") 1704067200000 (js "0.4fzyo82mvyr") 1704067200000 initial_state)
       (fun st => add (js "b") 1704067200000 (js "0.4fzyo82mvyr") 1704067200000 st))
  = Some (list_json [mkTask (js "lqu5m2o04fzyo") (js "a") (js "2024-01-01T00:00:00.000Z");
                     mkTask (js "lqu5m2o04fzyo") (js "b") (js "2024-01-01T00:00:00.000Z")]).
Proof. reflexivity. Qed.

(** ** C7: persistence round trip *)

Lemma hex_val_digit (d : Z) : 0 <= d < 16 -> hex_val (digit36 d) = Some d.
Proof.
  intros Hd; unfold digit36, hex_val.
  destruct (d <? 10) eqn:E; [apply Z.ltb_lt in E | apply Z.ltb_ge in E].
  - replace ((48 <=? 48 + d) && (48 + d <=? 57)) with true
      by (symmetry; apply andb_true_iff; split; apply Z.leb_le; lia).
    f_equal; lia.
  - replace ((48 <=? 87 + d) && (87 + d <=? 57)) with false
      by (symmetry; apply andb_false_iff; right; apply Z.leb_gt; lia).
    replace ((97 <=? 87 + d) && (87 + d <=? 102)) with true
      by (symmetry; apply andb_true_iff; split; apply Z.leb_le; lia).
    f_equal; lia.
Qed.

Lemma hex4_roundtrip (c : Z) : 0 <= c < 65536 ->
  hex4_val (digit36 (c / 4096 mod 16)) (digit36 (c / 256 mod 16))
           (digit36 (c / 16 mod 16)) (digit36 (c mod 16)) = Some c.
Proof.
  intros Hc; unfold hex4_val.
  rewrite !hex_val_digit by (apply Z.mod_pos_bound; lia).
  f_equal.
  replace 4096 with (16 * 16 * 16) by reflexivity.
  replace 256 with (16 * 16) by reflexivity.
  rewrite <- !Z.div_div by lia.
  set (x1 := c / 16). set (x2 := x1 / 16). set (x3 := x2 / 16).
  assert (E0 := Z.div_mod c 16 ltac:(lia)).
  assert (E1 := Z.div_mod x1 16 ltac:(lia)).
  assert (E2 := Z.div_mod x2 16 ltac:(lia)).
  assert (Hx3 : 0 <= x3 < 16).
  { unfold x3, x2, x1; rewrite !Z.div_div by lia; split;
    [apply Z.div_pos; lia | apply Z.div_lt_upper_bound; lia]. }
  rewrite (Z.mod_small x3) by lia.
  fold x1 x2 x3 in E0, E1, E2. lia.
Qed.

Lemma pstr_raw (c : Z) (t : jsstr) :
  32 <= c -> c <> 34 -> c <> 92 -> pstr (c :: t) = cons_fst c (pstr t).
Proof.
  intros H1 H2 H3; cbn [pstr].
  rewrite (proj2 (Z.eqb_neq c 34) H2), (proj2 (Z.eqb_neq c 92) H3).
  rewrite (proj2 (Z.ltb_ge c 32) H1); reflexivity.
Qed.

Lemma pstr_unicode (a b c d : Z) (t : jsstr) :
  pstr (92 :: 117 :: a :: b :: c :: d :: t)
  = match hex4_val a b c d with Some u => cons_fst u (pstr t) | None => None end.
Proof. reflexivity. Qed.

Lemma pstr_esc (c : Z) (t : jsstr) :
  0 <= c < 65536 -> pstr (esc_unit c ++ t) = cons_fst c (pstr t).
Proof.
  intros Hc; unfold esc_unit.
  destruct (c =? 8) eqn:E; [apply Z.eqb_eq in E; subst; reflexivity|].
  destruct (c =? 9) eqn:E9; [apply Z.eqb_eq in E9; subst; reflexivity|].
  destruct (c =? 10) eqn:E10; [apply Z.eqb_eq in E10; subst; reflexivity|].
  destruct (c =? 12) eqn:E12; [apply Z.eqb_eq in E12; subst; reflexivity|].
  destruct (c =? 13) eqn:E13; [apply Z.eqb_eq in E13; subst; reflexivity|].
  destruct (c =? 34) eqn:E34; [apply Z.eqb_eq in E34; subst; reflexivity|].
  destruct (c =? 92) eqn:E92; [apply Z.eqb_eq in E92; subst; reflexivity|].
  destruct ((c <? 32) || is_hi c || is_lo c) eqn:Eh.
  - unfold hex4; cbn [app]; rewrite pstr_unicode, hex4_roundtrip by exact Hc.
    reflexivity.
  - cbn [app]; apply pstr_raw; [|apply Z.eqb_neq; exact E34|apply Z.eqb_neq; exact E92].
    apply orb_false_iff in Eh as [Eh _]; apply orb_false_iff in Eh as [Eh _].
    apply Z.ltb_ge; exact Eh.
Qed.

Lemma pstr_quote_units (s rest : jsstr) :
  units_ok s -> pstr (quote_units s ++ 34 :: rest) = Some (s, rest).
Proof.
  intros Hs.
  assert (Hgen : forall n s, (List.length s <= n)%nat -> units_ok s ->
                 pstr (quote_units s ++ 34 :: rest) = Some (s, rest)).
  { clear s Hs; induction n as [|n IH]; intros s Hl Hs.
    - destruct s; [reflexivity | simpl in Hl; lia].
    - destruct s as [|c r]; [reflexivity|].
      inversion Hs as [|? ? Hc Hr]; subst.
      assert (Hesc : pstr ((esc_unit c ++ quote_units r) ++ 34 :: rest)
                     = Some (c :: r, rest)).
      { rewrite <- app_assoc, pstr_esc by exact Hc.
        rewrite IH by (simpl in Hl; lia || exact Hr); reflexivity. }
      cbn [quote_units]; destruct (is_hi c) eqn:Hh; [|exact Hesc].
      destruct r as [|d r'].
      + cbn [app]; rewrite pstr_esc by exact Hc; reflexivity.
      + destruct (is_lo d) eqn:Hlo; [|exact Hesc].
        inversion Hr as [|? ? Hd Hr']; subst.
        unfold is_hi in Hh; unfold is_lo in Hlo.
        apply andb_true_iff in Hh as [Hh _]; apply andb_true_iff in Hlo as [Hlo _].
        apply Z.leb_le in Hh; apply Z.leb_le in Hlo.
        cbn [app]; rewrite pstr_raw by lia; rewrite pstr_raw by lia.
        rewrite IH by (simpl in Hl; lia || exact Hr'); reflexivity. }
  exact (Hgen _ s (le_n _) Hs).
Qed.

Lemma pvalue_str (m : nat) (s rest : jsstr) :
  units_ok s -> pvalue (S m) (34 :: quote_units s ++ 34 :: rest) = Some (JStr s, rest).
Proof. intros Hs; simpl. rewrite pstr_quote_units by exact Hs; reflexivity. Qed.

Lemma pmembers_str_more (m : nat) (k v rest : jsstr) acc :
  units_ok k -> units_ok v ->
  pmembers (S (S m)) (34 :: quote_units k ++ 34 :: 58 :: 34 :: quote_units v ++ 34 :: 44 :: 34 :: rest) acc
  = pmembers (S m) (34 :: rest) (put k (JStr v) acc).
Proof.
  intros Hk Hv; cbn [pmembers].
  rewrite pstr_quote_units by exact Hk; simpl.
  rewrite pstr_quote_units by exact Hv; reflexivity.
Qed.

Lemma pmembers_str_last (m : nat) (k v rest : jsstr) acc :
  units_ok k -> units_ok v ->
  pmembers (S (S m)) (34 :: quote_units k ++ 34 :: 58 :: 34 :: quote_units v ++ 34 :: 125 :: rest) acc
  = Some (JObj (put k (JStr v) acc), rest).
Proof.
  intros Hk Hv; cbn [pmembers].
  rewrite pstr_quote_units by exact Hk; simpl.
  rewrite pstr_quote_units by exact Hv; reflexivity.
Qed.

Lemma stringify_task (t : Task) (rest : jsstr) :
  stringify (task_json t) ++ rest
  = 123 :: 34 :: quote_units (js "id") ++ 34 :: 58 :: 34 :: quote_units (task_id t) ++ 34 :: 44
    :: 34 :: quote_units (js "text") ++ 34 :: 58 :: 34 :: quote_units (task_text t) ++ 34 :: 44
    :: 34 :: quote_units (js "created_at") ++ 34 :: 58 :: 34 :: quote_units (task_created_at t)
    ++ 34 :: 125 :: rest.
Proof.
  cbn [stringify task_json join map fst snd]; unfold quote.
  rewrite <- !app_assoc; reflexivity.
Qed.

Lemma js_units (s : string) : units_ok (js s).
Proof.
  induction s as [|[b0 b1 b2 b3 b4 b5 b6 b7] s IH]; constructor; [|exact IH].
  destruct b0, b1, b2, b3, b4, b5, b6, b7; cbn; lia.
Qed.

Lemma pvalue_task (t : Task) (n : nat) (rest : jsstr) :
  task_units_ok t ->
  pvalue (5 + n) (stringify (task_json t) ++ rest) = Some (task_json t, rest).
Proof.
  intros (H1 & H2 & H3).
  rewrite stringify_task.
  change (5 + n)%nat with (S (S (S (S (S n))))).
  cbn [pvalue skip_ws is_json_ws orb Z.eqb Pos.eqb].
  rewrite pmembers_str_more by (exact (js_units _) || assumption).
  rewrite pmembers_str_more by (exact (js_units _) || assumption).
  rewrite pmembers_str_last by (exact (js_units _) || assumption).
  reflexivity.
Qed.

Lemma join_cons (x : jsstr) (xs : list jsstr) :
  join (x :: xs) = x ++ flat_map (fun y => 44 :: y) xs.
Proof.
  revert x; induction xs as [|y xs IH]; intros x; [simpl; rewrite app_nil_r; reflexivity|].
  change (join (x :: y :: xs)) with (x ++ [44] ++ join (y :: xs)).
  rewrite IH; reflexivity.
Qed.

Lemma pelems_tasks (l : list Task) :
  Forall task_units_ok l ->
  forall n acc rest, (List.length l + 6 <= n)%nat ->
  pelems n (flat_map (fun t => 44 :: stringify (task_json t)) l ++ 93 :: rest) acc
  = Some (JArr (acc ++ map task_json l), rest).
Proof.
  induction 1 as [|t l Ht Hl IH]; intros n acc rest Hn.
  - destruct n as [|n]; [lia|]; cbn; rewrite app_nil_r; reflexivity.
  - destruct n as [|n]; [simpl in Hn; lia|].
    cbn [flat_map]; rewrite <- app_assoc; cbn [app].
    cbn [pelems skip_ws is_json_ws orb Z.eqb Pos.eqb].
    replace n with (5 + (n - 5))%nat by (simpl in Hn; lia).
    rewrite pvalue_task by exact Ht.
    replace (5 + (n - 5))%nat with n by (simpl in Hn; lia).
    rewrite IH by (simpl in Hn; lia).
    rewrite <- app_assoc; reflexivity.
Qed.

Lemma stringify_tasks_length (l : list Task) :
  (20 * List.length l <= List.length (flat_map (fun t => 44%Z :: stringify (task_json t)) l))%nat.
Proof.
  induction l as [|t l IH]; [simpl; lia|].
  cbn [flat_map]; rewrite length_app.
  assert (H := f_equal (@List.length Z) (stringify_task t [])).
  rewrite app_nil_r in H; cbn [Datatypes.length] in *.
  rewrite H; repeat (first [rewrite length_app | progress cbn [Datatypes.length]]); lia.
Qed.

Lemma stringify_tasks_cons (t : Task) (l : list Task) (rest : jsstr) :
  stringify (list_json (t :: l)) ++ rest
  = 91 :: stringify (task_json t) ++ flat_map (fun t => 44 :: stringify (task_json t)) l
         ++ 93 :: rest.
Proof.
  unfold list_json; cbn [stringify map]; rewrite join_cons.
  assert (E : flat_map (fun y => 44 :: y) (map stringify (map task_json l))
              = flat_map (fun t => 44 :: stringify (task_json t)) l).
  { induction l as [|u l IH]; [reflexivity|]; cbn; rewrite IH; reflexivity. }
  rewrite E, <- !app_assoc; reflexivity.
Qed.

Lemma pvalue_tasks (t : Task) (l : list Task) (n : nat) (rest : jsstr) :
  Forall task_units_ok (t :: l) -> (List.length l + 6 <= n)%nat ->
  pvalue (S n) (stringify (list_json (t :: l)) ++ rest) = Some (list_json (t :: l), rest).
Proof.
  intros Hall Hn; inversion Hall as [|? ? Ht Hl]; subst.
  rewrite stringify_tasks_cons, (stringify_task t).
  cbn [pvalue skip_ws is_json_ws orb Z.eqb Pos.eqb].
  rewrite <- (stringify_task t).
  replace n with (5 + (n - 5))%nat by lia.
  rewrite pvalue_task by exact Ht.
  replace (5 + (n - 5))%nat with n by lia.
  rewrite pelems_tasks by (exact Hl || lia); reflexivity.
Qed.

(** C7.  For every task list (its strings made of 16-bit code units, as
    JS strings are), [JSON.parse(JSON.stringify(tasks))] gives back the
    same list: the same [id], [text] and [created_at] for every task, in
    the same order. *)
Theorem tasks_roundtrip (l : list Task) (H : Forall task_units_ok l) :
  parse_json (stringify (list_json l)) = Some (list_json l).
Proof.
  destruct l as [|t l]; [reflexivity|].
  unfold parse_json.
  assert (Hlen : (List.length l + 6 <= List.length (stringify (list_json (t :: l))))%nat).
  { assert (E := f_equal (@List.length Z) (stringify_tasks_cons t l [])).
    rewrite app_nil_r in E; rewrite E; cbn [Datatypes.length]; rewrite !length_app.
    assert (E2 := f_equal (@List.length Z) (stringify_task t [])).
    rewrite app_nil_r in E2; rewrite E2.
    assert (Hl := stringify_tasks_length l).
    repeat (first [rewrite length_app | progress cbn [Datatypes.length]]); lia. }
  rewrite <- (app_nil_r (stringify (list_json (t :: l)))) at 2.
  rewrite pvalue_tasks by (exact H || exact Hlen); reflexivity.
Qed.

Lemma tasks_roundtrip_witness :
  Forall task_units_ok [task_a; milk] /\
  parse_json (stringify (list_json [task_a; milk])) = Some (list_json [task_a; milk]).
Proof.
  assert (H : Forall task_units_ok [task_a; milk]).
  { repeat apply Forall_cons; try apply Forall_nil;
      (split; [|split]); apply js_units. }
  split; [exact H | apply (tasks_roundtrip [task_a; milk] H)].
Defined.

(** ** C8: loading failures *)

(** C8.  When the stored value is absent, when reading it throws, or when
    [JSON.parse] rejects it, mounting ends with the empty task list; the
    failure is caught ([mount] always yields a state). *)
Theorem load_failure_empty (r : stored)
    (H : r = Absent \/ r = ReadThrows \/ exists raw, r = Stored raw /\ parse_json raw = None) :
  tasks (mount r) = JArr [].
Proof.
  destruct H as [-> | [-> | [raw [-> Hp]]]]; try reflexivity.
  unfold mount; destruct raw as [|c raw]; [reflexivity|].
  rewrite Hp; reflexivity.
Qed.

Lemma load_failure_empty_witness :
  (Stored (js "[{") = Absent \/ Stored (js "[{") = ReadThrows
   \/ exists raw, Stored (js "[{") = Stored raw /\ parse_json raw = None) /\
  tasks (mount (Stored (js "[{"))) = JArr [].
Proof.
  assert (H : Stored (js "[{") = Absent \/ Stored (js "[{") = ReadThrows
              \/ exists raw, Stored (js "[{") = Stored raw /\ parse_json raw = None).
  { right; right; exists (js "[{"); split; reflexivity. }
  split; [exact H | apply (load_failure_empty _ H)].
Defined.

(** ** C9: what commitEdit changes *)

(** C9 (amended).  For a text that is not empty after trimming,
    [commitEdit(id, raw)] changes only the [text] of the tasks whose id is
    [id]: every task keeps its [id] and [created_at], the others keep their
    text, and the list keeps its length and order.  It always persists the
    whole new list, whether or not any text changed. *)
Theorem commitEdit_frame (l : list Task) (st : state) (x raw : jsstr)
    (H : trim raw <> []) :
  exists st', commitEdit (Val (JStr x)) raw (with_tasks l st) = Some (Undef, st')
    /\ tasks st' = list_json (map (edit_task x (trim raw)) l)
    /\ Forall2 (fun t t' => task_id t' = task_id t
                            /\ task_created_at t' = task_created_at t
                            /\ task_text t' = (if str_eqb (task_id t) x then trim raw
                                               else task_text t))
               l (map (edit_task x (trim raw)) l)
    /\ writes st' = writes st ++ [stringify (tasks st')].
Proof.
  unfold commitEdit, saveEdit; cbn [editingText set_editing].
  destruct (trim raw) as [|c r] eqn:E; [congruence|].
  cbn [tasks set_editing with_tasks list_json].
  rewrite <- E, map_opt_tasks.
  eexists; split; [reflexivity|]; split; [reflexivity|]; split.
  - induction l as [|t l IH]; constructor; [|exact IH].
    unfold edit_task; destruct (str_eqb (task_id t) x); auto.
  - reflexivity.
Qed.

Lemma commitEdit_frame_witness :
  js "Y" <> [] /\ trim (js " Y ") <> [] /\
  exists st', commitEdit (Val (JStr (js "a"))) (js " Y ") (with_tasks [task_a] editing_a)
              = Some (Undef, st')
    /\ tasks st' = list_json (map (edit_task (js "a") (trim (js " Y "))) [task_a])
    /\ Forall2 (fun t t' => task_id t' = task_id t
                            /\ task_created_at t' = task_created_at t
                            /\ task_text t' = (if str_eqb (task_id t) (js "a")
                                               then trim (js " Y ") else task_text t))
               [task_a] (map (edit_task (js "a") (trim (js " Y "))) [task_a])
    /\ writes st' = writes editing_a ++ [stringify (tasks st')].
Proof.
  assert (H : trim (js " Y ") <> []) by discriminate.
  split; [discriminate|]; split; [exact H|].
  apply (commitEdit_frame [task_a] editing_a (js "a") (js " Y ") H).
Defined.

(** C9 (counterexample).  Committing [task_a]'s own text [X] changes no
    task, yet the list is written to localStorage again. *)
Lemma commit_same_text_writes :
  exists st', commitEdit (Val (JStr (js "a"))) (js "X") editing_a = Some (Undef, st')
    /\ tasks st' = tasks editing_a
    /\ writes st' = writes editing_a ++ [stringify (tasks editing_a)]
    /\ writes st' <> writes editing_a.
Proof.
  eexists; split; [reflexivity|]; split; [reflexivity|]; split; [reflexivity|].
  discriminate.
Qed.

(** ** C10: loading does not validate *)

(** C10.  Whatever [JSON.parse] accepts from a non-empty stored string is
    installed, unchanged, as the task list: duplicate ids, blank texts or
    missing fields are not checked. *)
Theorem load_installs_as_is (raw : jsstr) (v : json)
    (Hne : raw <> []) (Hp : parse_json raw = Some v) :
  tasks (mount (Stored raw)) = v.
Proof.
  unfold mount; destruct raw as [|c raw]; [congruence|].
  rewrite Hp; reflexivity.
Qed.

Lemma load_installs_as_is_witness :
  (bad_store <> [] /\ parse_json bad_store = Some bad_tasks) /\
  tasks (mount (Stored bad_store)) = bad_tasks.
Proof.
  assert (Hne : bad_store <> []) by discriminate.
  assert (Hp : parse_json bad_store = Some bad_tasks) by reflexivity.
  split; [split; assumption | apply (load_installs_as_is _ _ Hne Hp)].
Defined.

(** ** Witnesses of C1 and C3 *)

Lemma add_appends_trimmed_witness :
  Z.abs 1704067200000 <= 8640000000000000 /\
  (trim (js " Buy milk ") = [] ->
     add (js " Buy milk ") 1704067200000 (js "0.4fzyo82mvyr") 1704067200000
         (with_tasks [task_a] initial_state)
     = Some (Undef, set_input (js " Buy milk ") (with_tasks [task_a] initial_state)))
  /\ (trim (js " Buy milk ") <> [] ->
      exists iso, toISOString 1704067200000 = Some iso /\
      let t := mkTask (makeId 1704067200000 (js "0.4fzyo82mvyr")) (trim (js " Buy milk ")) iso in
      add (js " Buy milk ") 1704067200000 (js "0.4fzyo82mvyr") 1704067200000
          (with_tasks [task_a] initial_state)
      = Some (Undef, set_input [] (set_tasks (list_json ([task_a] ++ [t]))
                                            (set_input (js " Buy milk ") (with_tasks [task_a] initial_state))))
      /\ List.length ([task_a] ++ [t]) = S (List.length [task_a])).
Proof.
  assert (H : Z.abs 1704067200000 <= 8640000000000000) by (vm_compute; discriminate).
  split; [exact H|].
  apply (add_appends_trimmed [task_a] initial_state (js " Buy milk ") _ _ _ H).
Defined.

Lemma commitEdit_trims_witness :
  (trim (js "  ") = [] ->
     exists st', commitEdit (Val (JStr (js "a"))) (js "  ") (with_tasks [task_a] editing_a)
                 = Some (Undef, st')
       /\ tasks st' = list_json [task_a] /\ editingId st' = Val JNull
       /\ writes st' = writes editing_a)
  /\ (trim (js "  ") <> [] ->
     exists st', commitEdit (Val (JStr (js "a"))) (js "  ") (with_tasks [task_a] editing_a)
                 = Some (Undef, st')
       /\ tasks st' = list_json (map (edit_task (js "a") (trim (js "  "))) [task_a])
       /\ editingId st' = Val JNull).
Proof. exact (commitEdit_trims [task_a] editing_a (js "a") (js "  ")). Defined.

(** ** Further properties: trimming *)

Lemma trim_start_no_lead (s : jsstr) : no_lead (trim_start s).
Proof.
  induction s as [|c s IH]; [exact I|].
  cbn [trim_start]; destruct (is_js_space c) eqn:E; [exact IH | exact E].
Qed.

Lemma trim_start_fix (s : jsstr) : no_lead s -> trim_start s = s.
Proof. destruct s as [|c s]; cbn; intros H; [reflexivity | rewrite H; reflexivity]. Qed.

Lemma trim_start_suffix (s : jsstr) : exists p, s = p ++ trim_start s.
Proof.
  induction s as [|c s [p Hp]]; [exists []; reflexivity|].
  cbn [trim_start]; destruct (is_js_space c).
  - exists (c :: p); cbn; rewrite <- Hp; reflexivity.
  - exists []; reflexivity.
Qed.

Lemma trim_start_forall (P : Z -> Prop) (s : jsstr) : Forall P s -> Forall P (trim_start s).
Proof.
  induction 1 as [|c s Hc Hs IH]; [constructor|].
  cbn [trim_start]; destruct (is_js_space c); [exact IH | constructor; assumption].
Qed.

Lemma trim_forall (P : Z -> Prop) (s : jsstr) : Forall P s -> Forall P (trim s).
Proof.
  intros H; unfold trim; apply Forall_rev, trim_start_forall, Forall_rev, trim_start_forall, H.
Qed.

Lemma trim_idem (s : jsstr) : trim (trim s) = trim s.
Proof.
  unfold trim.
  assert (Hu := trim_start_no_lead s).
  revert Hu; generalize (trim_start s); intros u Hu.
  assert (Hw := trim_start_no_lead (rev u)).
  destruct (trim_start_suffix (rev u)) as [p Hp].
  revert Hw Hp; generalize (trim_start (rev u)); intros w Hw Hp.
  assert (Hrw : no_lead (rev w)).
  { assert (Eu : u = rev w ++ rev p) by (rewrite <- rev_app_distr, <- Hp, rev_involutive; reflexivity).
    destruct (rev w) as [|d r]; [exact I|].
    rewrite Eu in Hu; exact Hu. }
  rewrite (trim_start_fix _ Hrw), rev_involutive, (trim_start_fix _ Hw); reflexivity.
Qed.

Lemma trim_start_spaces (ws s : jsstr) :
  Forall (fun c => is_js_space c = true) ws -> trim_start (ws ++ s) = trim_start s.
Proof.
  induction 1 as [|c ws Hc _ IH]; [reflexivity|].
  cbn [app trim_start]; rewrite Hc; exact IH.
Qed.

Lemma trim_start_app (s t : jsstr) :
  trim_start (s ++ t) = match trim_start s with [] => trim_start t | u => u ++ t end.
Proof.
  induction s as [|c s IH]; [reflexivity|].
  cbn [app trim_start]; destruct (is_js_space c); [exact IH | reflexivity].
Qed.

(** White space around a string does not change its trim. *)
Lemma trim_pad (ws1 s ws2 : jsstr) :
  Forall (fun c => is_js_space c = true) ws1 -> Forall (fun c => is_js_space c = true) ws2 ->
  trim (ws1 ++ s ++ ws2) = trim s.
Proof.
  intros H1 H2; unfold trim.
  rewrite trim_start_spaces by exact H1; rewrite trim_start_app.
  destruct (trim_start s) as [|c u].
  - rewrite <- (app_nil_r ws2), trim_start_spaces by exact H2; reflexivity.
  - rewrite rev_app_distr, trim_start_spaces by (apply Forall_rev; exact H2); reflexivity.
Qed.

(** ** Further properties: code units *)

Lemma units_firstn (n : nat) (s : jsstr) : units_ok s -> units_ok (firstn n s).
Proof.
  revert s; induction n as [|n IH]; intros s H; [constructor|].
  destruct H as [|c s Hc Hs]; [constructor|]; cbn; constructor; [exact Hc | apply IH, Hs].
Qed.

Lemma units_skipn (n : nat) (s : jsstr) : units_ok s -> units_ok (skipn n s).
Proof.
  revert s; induction n as [|n IH]; intros s H; [exact H|].
  destruct H as [|c s Hc Hs]; [constructor|]; cbn; apply IH, Hs.
Qed.

Lemma radix_aux_units (b : Z) (f : nat) (n : Z) (acc : jsstr) :
  0 < b <= 36 -> units_ok acc -> units_ok (radix_aux b f n acc).
Proof.
  intros Hb; revert n acc; induction f as [|f IH]; intros n acc Hacc; [exact Hacc|].
  assert (Hd : 0 <= digit36 (n mod b) < 65536).
  { assert (0 <= n mod b < b) by (apply Z.mod_pos_bound; lia).
    unfold digit36; destruct (n mod b <? 10); lia. }
  cbn [radix_aux]; destruct (n <? b); [constructor; assumption|].
  apply IH; constructor; assumption.
Qed.

Lemma int_to_string_units (b n : Z) : 0 < b <= 36 -> units_ok (int_to_string b n).
Proof.
  intros Hb; unfold int_to_string; destruct (n <? 0).
  - constructor; [lia | apply radix_aux_units; [exact Hb | constructor]].
  - apply radix_aux_units; [exact Hb | constructor].
Qed.

Lemma makeId_units (now : Z) (rnd : jsstr) : units_ok rnd -> units_ok (makeId now rnd).
Proof.
  intros H; unfold makeId, slice, to36; apply Forall_app; split.
  - apply int_to_string_units; lia.
  - apply units_firstn, units_skipn, H.
Qed.

Lemma pad_digits_units (w : nat) (n : Z) : units_ok (pad_digits w n).
Proof.
  revert n; induction w as [|w IH]; intros n; [constructor|].
  cbn [pad_digits]; apply Forall_app; split; [apply IH|].
  assert (0 <= n mod 10 < 10) by (apply Z.mod_pos_bound; lia).
  constructor; [lia | constructor].
Qed.

Lemma toISOString_units (t : Z) (iso : jsstr) : toISOString t = Some iso -> units_ok iso.
Proof.
  unfold toISOString; destruct (8640000000000000 <? Z.abs t); [discriminate|].
  destruct (civil_from_days (t / 86400000)) as [[y mo] d]; intros H.
  rewrite <- (f_equal (fun o => match o with Some x => x | None => iso end) H).
  cbv beta iota.
  assert (Hy : units_ok (iso_year y)).
  { unfold iso_year; destruct ((0 <=? y) && (y <=? 9999)); [apply pad_digits_units|].
    destruct (y <? 0); (constructor; [lia | apply pad_digits_units]). }
  unfold units_ok in *.
  repeat match goal with
         | |- Forall _ (iso_year _) => exact Hy
         | |- Forall _ (pad_digits _ _) => apply pad_digits_units
         | |- Forall _ (_ ++ _) => apply Forall_app; split
         | |- Forall _ (_ :: _) => apply Forall_cons; [lia|]
         | |- Forall _ [] => apply Forall_nil
         end.
Qed.

(** ** Further properties: the handlers on task records *)

Lemma prop_task_text (t : Task) :
  prop (task_json t) (js "text") = Some (Val (JStr (task_text t))).
Proof. reflexivity. Qed.

Lemma addTask_spec (l : list Task) (st st' : state) (now : Z) (rnd : jsstr) (now2 : Z)
    (r : jsval) :
  tasks st = list_json l -> addTask now rnd now2 st = Some (r, st') ->
  r = Undef /\
  ((trim (input st) = [] /\ st' = st)
   \/ (trim (input st) <> [] /\ exists iso, toISOString now2 = Some iso /\
       st' = set_input [] (set_tasks (list_json (l ++ [mkTask (makeId now rnd) (trim (input st)) iso])) st))).
Proof.
  intros Ht H; unfold addTask in H; cbv zeta in H.
  destruct (trim (input st)) as [|c u] eqn:E.
  - injection H as <- <-; auto.
  - destruct (toISOString now2) as [iso|] eqn:Ei; [|discriminate].
    rewrite Ht in H; unfold list_json in H; cbn [spread_iter] in H.
    injection H as <- <-; split; [reflexivity|]; right; split; [discriminate|].
    exists iso; split; [reflexivity|]; unfold list_json; rewrite map_app; reflexivity.
Qed.

Lemma deleteTask_tasks (l : list Task) (st : state) (x : jsstr) :
  tasks st = list_json l ->
  deleteTask (Val (JStr x)) st
  = Some (Undef, set_tasks (list_json (filter (fun t => negb (str_eqb (task_id t) x)) l)) st).
Proof.
  intros Ht; unfold deleteTask; rewrite Ht; unfold list_json; cbn beta iota.
  rewrite filter_opt_tasks; reflexivity.
Qed.

Lemma saveEdit_tasks (l : list Task) (st : state) (x s : jsstr) :
  tasks st = list_json l -> editingText st = Val (JStr s) ->
  saveEdit (Val (JStr x)) st
  = Some (Undef, match trim s with
                 | [] => set_editing (Val JNull) (Val (JStr [])) st
                 | _ => set_editing (Val JNull) (Val (JStr []))
                          (set_tasks (list_json (map (edit_task x (trim s)) l)) st)
                 end).
Proof.
  intros Ht He; unfold saveEdit; rewrite He; cbv zeta.
  destruct (trim s) as [|c u] eqn:E; [reflexivity|].
  rewrite Ht; unfold list_json; cbn beta iota.
  rewrite map_opt_tasks; reflexivity.
Qed.

Lemma startEdit_task (t : Task) (st : state) :
  startEdit (task_json t) st
  = Some (Undef, set_editing (Val (JStr (task_id t))) (Val (JStr (task_text t))) st).
Proof. reflexivity. Qed.

Lemma onEditKeyDown_enter (id : jsval) (st : state) :
  onEditKeyDown (js "Enter") id st = then_ (saveEdit id st) (fun st1 => Some (Undef, st1)).
Proof. reflexivity. Qed.

Lemma onEditKeyDown_escape (id : jsval) (st : state) :
  onEditKeyDown (js "Escape") id st = escapeEdit st.
Proof. reflexivity. Qed.

(** The row handlers of a record list receive a record and its id. *)
Lemma task_at_tasks (l : list Task) (st : state) (i : nat) (t : json) (id : jsval) :
  tasks st = list_json l -> task_at st i = Some t -> prop t (js "id") = Some id ->
  exists u, nth_error l i = Some u /\ In u l /\ t = task_json u /\ id = Val (JStr (task_id u)).
Proof.
  intros Ht Hi Hp; unfold task_at in Hi; rewrite Ht in Hi; unfold list_json in Hi.
  rewrite nth_error_map in Hi.
  destruct (nth_error l i) as [u|] eqn:E; [|discriminate].
  injection Hi as <-; rewrite prop_task_id in Hp; injection Hp as <-.
  exists u; repeat split; auto; eapply nth_error_In; exact E.
Qed.

(** The rows of a record list. *)
Lemma mapM_rows (e x : jsval) (l : list Task) :
  string_ok_val x = true ->
  mapM (render_row e x) (map task_json l)
  = Some (map (fun u => if strict_eq e (Val (JStr (task_id u))) then REdit x
                        else RView (Val (JStr (task_text u)))) l).
Proof.
  intros Hx; induction l as [|u l IH]; [reflexivity|].
  cbn [map mapM]; rewrite IH; unfold render_row; rewrite prop_task_id, prop_task_text.
  destruct (strict_eq e (Val (JStr (task_id u)))); [rewrite Hx|]; reflexivity.
Qed.

Lemma view_tasks (l : list Task) (st : state) :
  tasks st = list_json l -> string_ok_val (editingText st) = true ->
  view st = Some (int_to_string 10 (Z.of_nat (List.length l)),
                  map (fun u => if strict_eq (editingId st) (Val (JStr (task_id u)))
                                then REdit (editingText st)
                                else RView (Val (JStr (task_text u)))) l,
                  Nat.eqb (List.length l) 0).
Proof.
  intros Ht Hx; unfold view; rewrite Ht; unfold list_json at 1; cbn beta iota.
  rewrite mapM_rows, length_map by exact Hx; reflexivity.
Qed.

Lemma str_eqb_neq (a b : jsstr) : a <> b -> str_eqb a b = false.
Proof. intros H; destruct (str_eqb a b) eqn:E; [apply str_eqb_eq in E; contradiction | reflexivity]. Qed.

Lemma forall_filter {A} (P : A -> Prop) (f : A -> bool) (l : list A) :
  Forall P l -> Forall P (filter f l).
Proof.
  induction 1 as [|a l Ha _ IH]; [constructor|]; cbn; destruct (f a); auto.
Qed.

Lemma keys_filter (f : Task -> bool) (l : list Task) : subseq (keys (filter f l)) (keys l).
Proof.
  induction l as [|a l IH]; [constructor|]; cbn; destruct (f a); constructor; exact IH.
Qed.

Lemma keys_edit (x v : jsstr) (l : list Task) : keys (map (edit_task x v) l) = keys l.
Proof.
  unfold keys; rewrite map_map; apply map_ext; intros a; unfold edit_task.
  destruct (str_eqb (task_id a) x); reflexivity.
Qed.

Lemma subseq_refl {A} (l : list A) : subseq l l.
Proof. induction l; constructor; assumption. Qed.

Lemma subseq_nil_l {A} (l : list A) : subseq [] l.
Proof. induction l; constructor; assumption. Qed.

(** ** Further properties: the session invariant *)

(** [JSON.parse(JSON.stringify(tasks))] on records (the proof of C7's
    statement, for use by the session lemmas). *)
Lemma parse_stringify_tasks (l : list Task) :
  Forall task_units_ok l -> parse_json (stringify (list_json l)) = Some (list_json l).
Proof.
  intros H; destruct l as [|t l]; [reflexivity|].
  unfold parse_json.
  assert (Hlen : (List.length l + 6 <= List.length (stringify (list_json (t :: l))))%nat).
  { assert (E := f_equal (@List.length Z) (stringify_tasks_cons t l [])).
    rewrite app_nil_r in E; rewrite E; cbn [Datatypes.length]; rewrite !length_app.
    assert (E2 := f_equal (@List.length Z) (stringify_task t [])).
    rewrite app_nil_r in E2; rewrite E2.
    assert (Hl := stringify_tasks_length l).
    repeat (first [rewrite length_app | progress cbn [Datatypes.length]]); lia. }
  rewrite <- (app_nil_r (stringify (list_json (t :: l)))) at 2.
  rewrite pvalue_tasks by (exact H || exact Hlen); reflexivity.
Qed.

Lemma task_ok_units (l : list Task) : Forall task_ok l -> Forall task_units_ok l.
Proof. apply Forall_impl; intros t [H _]; exact H. Qed.

Lemma stringify_list_cons (l : list Task) : exists c r, stringify (list_json l) = c :: r.
Proof. do 2 eexists; reflexivity. Qed.

(** Loading what [JSON.stringify] of a record list wrote. *)
Lemma mount_stored_tasks (l : list Task) :
  Forall task_units_ok l ->
  mount (Stored (stringify (list_json l)))
  = set_tasks (list_json l)
      (mkState (JArr []) [] (Val JNull) (Val (JStr [])) [stringify (JArr [])]).
Proof.
  intros H; destruct (stringify_list_cons l) as (c & r & E).
  unfold mount; rewrite E; cbn beta iota; rewrite <- E, parse_stringify_tasks by exact H.
  reflexivity.
Qed.

Lemma last_write_set_tasks (v : json) (st : state) :
  last_write (set_tasks v st) = stringify v.
Proof. unfold last_write, set_tasks; cbn [writes]; apply last_last. Qed.

Lemma good_set_input (st : state) (v : jsstr) : good st -> units_ok v -> good (set_input v st).
Proof. intros (Ht & _ & He & Hw) Hv; repeat split; auto. Qed.

Lemma good_set_editing (st : state) (i : jsval) (s : jsstr) :
  good st -> units_ok s -> good (set_editing i (Val (JStr s)) st).
Proof. intros (Ht & Hi & _ & Hw) Hs; repeat split; auto; exists s; auto. Qed.

Lemma good_set_tasks (st : state) (l : list Task) :
  good st -> Forall task_ok l -> good (set_tasks (list_json l) st).
Proof.
  intros (_ & Hi & He & _) Hl; split; [exists l; split; auto|].
  split; [exact Hi|]; split; [exact He|]; apply last_write_set_tasks.
Qed.

(** The list after a successful [saveEdit] on a [good] state. *)
Lemma good_saveEdit (st st' : state) (x : jsstr) (r : jsval) :
  good st -> saveEdit (Val (JStr x)) st = Some (r, st') -> good st'.
Proof.
  intros Hg H; pose proof Hg as ((l & Ht & Hl) & Hi & (s & He & Hs) & Hw).
  rewrite (saveEdit_tasks l st x s Ht He) in H; injection H as <- <-.
  destruct (trim s) as [|c u] eqn:E.
  - apply good_set_editing; [exact Hg | constructor].
  - apply good_set_editing; [|constructor]; apply good_set_tasks; [exact Hg|].
    rewrite <- E; clear - Hl Hs E.
    induction Hl as [|t l Ht Hl IH]; [constructor|]; constructor; [|exact IH].
    unfold edit_task; destruct (str_eqb (task_id t) x); [|exact Ht].
    destruct Ht as ((H1 & _ & H3) & _ & _).
    split; [split; [exact H1|split; [apply trim_forall, Hs | exact H3]]|].
    cbn [task_text]; split; [rewrite E; discriminate | apply trim_idem].
Qed.

Lemma good_addTask (st st' : state) (now : Z) (rnd : jsstr) (now2 : Z) (r : jsval) :
  good st -> units_ok rnd -> addTask now rnd now2 st = Some (r, st') -> good st'.
Proof.
  intros Hg Hr H; pose proof Hg as ((l & Ht & Hl) & Hi & _ & _).
  destruct (addTask_spec l st st' now rnd now2 r Ht H)
    as [_ [[_ ->] | (Hne & iso & Hiso & ->)]]; [exact Hg|].
  apply good_set_input; [|constructor]; apply good_set_tasks; [exact Hg|].
  apply Forall_app; split; [exact Hl|]; constructor; [|constructor].
  split; [split; [apply makeId_units, Hr | split; [apply trim_forall, Hi | eapply toISOString_units, Hiso]]|].
  split; [exact Hne | apply trim_idem].
Qed.

(** Every user action keeps the invariant. *)
Lemma good_fires (st st' : state) : good st -> fires st st' -> good st'.
Proof.
  intros Hg Hf; pose proof Hg as ((l & Ht & Hl) & Hi & (s & He & Hs) & Hw).
  destruct Hf as [v st Hv | key now rnd now2 st st' r Hr H | now rnd now2 st st' r Hr H
                 | st st' r H | i t id v st Hi' Hp Hm Hv | i t id key st st' r Hi' Hp Hm H
                 | i t id st st' r Hi' Hp Hm H | i t id st st' r Hi' Hp Hm H
                 | i t id st st' r Hi' Hp Hm H].
  - apply good_set_input; assumption.
  - unfold onInputKeyDown in H; destruct (str_eqb key (js "Enter")).
    + destruct (addTask now rnd now2 st) as [[r0 st0]|] eqn:E; [|discriminate].
      cbn in H; injection H as <- <-; exact (good_addTask st st0 now rnd now2 r0 Hg Hr E).
    + injection H as <- <-; exact Hg.
  - exact (good_addTask st st' now rnd now2 r Hg Hr H).
  - injection H as <- <-; apply (good_set_tasks st []); [exact Hg | constructor].
  - apply good_set_editing; assumption.
  - destruct (task_at_tasks l st i t id Ht Hi' Hp) as (u & _ & _ & -> & ->).
    unfold onEditKeyDown in H.
    destruct (str_eqb key (js "Enter")).
    + destruct (saveEdit (Val (JStr (task_id u))) st) as [[r0 st0]|] eqn:E; [|discriminate].
      cbn [then_] in H; assert (Hg0 := good_saveEdit _ _ _ _ Hg E).
      destruct (str_eqb key (js "Escape")); injection H as <- <-;
        [apply good_set_editing; [exact Hg0 | constructor] | exact Hg0].
    + cbn [then_] in H; destruct (str_eqb key (js "Escape")); injection H as <- <-;
        [apply good_set_editing; [exact Hg | constructor] | exact Hg].
  - destruct (task_at_tasks l st i t id Ht Hi' Hp) as (u & _ & _ & -> & ->).
    eapply good_saveEdit; eassumption.
  - destruct (task_at_tasks l st i t id Ht Hi' Hp) as (u & _ & Hu & -> & ->).
    rewrite startEdit_task in H; injection H as <- <-.
    apply good_set_editing; [exact Hg|].
    rewrite Forall_forall in Hl; destruct (Hl u Hu) as ((_ & H2 & _) & _); exact H2.
  - destruct (task_at_tasks l st i t id Ht Hi' Hp) as (u & _ & _ & -> & ->).
    rewrite (deleteTask_tasks l st _ Ht) in H; injection H as <- <-.
    apply good_set_tasks; [exact Hg | apply forall_filter, Hl].
Qed.

Lemma good_mount_tasks (l : list Task) :
  Forall task_ok l -> good (mount (Stored (stringify (list_json l)))).
Proof.
  intros Hl; rewrite mount_stored_tasks by (apply task_ok_units, Hl).
  split; [exists l; split; auto|]; split; [constructor|]; split; [exists []; split; auto; constructor|].
  apply last_write_set_tasks.
Qed.

Lemma session_good (st : state) : session st -> good st.
Proof.
  induction 1 as [| st st' _ IH [_ Hf] | st _ IH].
  - split; [exists []; split; [reflexivity | constructor]|].
    split; [constructor|]; split; [exists []; split; [reflexivity | constructor]|]; reflexivity.
  - eapply good_fires; eassumption.
  - destruct IH as ((l & Ht & Hl) & _ & _ & Hw).
    rewrite Hw, Ht; apply good_mount_tasks, Hl.
Qed.

Lemma saveEdit_keys (l : list Task) (st st' : state) (x s : jsstr) (r : jsval) :
  tasks st = list_json l -> editingText st = Val (JStr s) ->
  saveEdit (Val (JStr x)) st = Some (r, st') ->
  exists l', tasks st' = list_json l' /\ keys l' = keys l.
Proof.
  intros Ht He H; rewrite (saveEdit_tasks l st x s Ht He) in H; injection H as <- <-.
  destruct (trim s) as [|c u].
  - exists l; split; [exact Ht | reflexivity].
  - eexists; split; [reflexivity | apply keys_edit].
Qed.

Lemma fires_keys (l : list Task) (st st' : state) :
  good st -> tasks st = list_json l -> fires st st' ->
  exists l', tasks st' = list_json l' /\ (subseq (keys l') (keys l) \/ exists t, l' = l ++ [t]).
Proof.
  intros Hg Ht Hf; pose proof Hg as (_ & _ & (s & He & _) & _).
  assert (Same : forall st0, tasks st0 = tasks st ->
            exists l', tasks st0 = list_json l' /\ (subseq (keys l') (keys l) \/ exists t, l' = l ++ [t])).
  { intros st0 E; exists l; split; [rewrite E; exact Ht | left; apply subseq_refl]. }
  assert (Add : forall now rnd now2 r st0, addTask now rnd now2 st = Some (r, st0) ->
            exists l', tasks st0 = list_json l' /\ (subseq (keys l') (keys l) \/ exists t, l' = l ++ [t])).
  { intros now rnd now2 r st0 H.
    destruct (addTask_spec l st st0 now rnd now2 r Ht H) as [_ [[_ ->] | (_ & iso & _ & ->)]];
      [apply Same; reflexivity|].
    eexists; split; [reflexivity | right; eexists; reflexivity]. }
  assert (Save : forall x st0 r, saveEdit (Val (JStr x)) st = Some (r, st0) ->
            exists l', tasks st0 = list_json l' /\ (subseq (keys l') (keys l) \/ exists t, l' = l ++ [t])).
  { intros x st0 r H; destruct (saveEdit_keys l st st0 x s r Ht He H) as (l' & E1 & E2).
    exists l'; split; [exact E1 | left; rewrite E2; apply subseq_refl]. }
  destruct Hf as [v st Hv | key now rnd now2 st st' r Hr H | now rnd now2 st st' r Hr H
                 | st st' r H | i t id v st Hi' Hp Hm Hv | i t id key st st' r Hi' Hp Hm H
                 | i t id st st' r Hi' Hp Hm H | i t id st st' r Hi' Hp Hm H
                 | i t id st st' r Hi' Hp Hm H].
  - apply Same; reflexivity.
  - unfold onInputKeyDown in H; destruct (str_eqb key (js "Enter")).
    + destruct (addTask now rnd now2 st) as [[r0 st0]|] eqn:E; [|discriminate].
      cbn in H; injection H as <- <-; exact (Add _ _ _ _ _ E).
    + injection H as <- <-; apply Same; reflexivity.
  - exact (Add _ _ _ _ _ H).
  - injection H as <- <-; exists []; split; [reflexivity | left; apply subseq_nil_l].
  - apply Same; reflexivity.
  - destruct (task_at_tasks l st i t id Ht Hi' Hp) as (u & _ & _ & -> & ->).
    unfold onEditKeyDown in H; destruct (str_eqb key (js "Enter")).
    + destruct (saveEdit (Val (JStr (task_id u))) st) as [[r0 st0]|] eqn:E; [|discriminate].
      destruct (Save _ _ _ E) as (l' & E1 & E2).
      cbn [then_] in H; destruct (str_eqb key (js "Escape")); injection H as <- <-;
        exists l'; split; auto.
    + cbn [then_] in H; destruct (str_eqb key (js "Escape")); injection H as <- <-;
        apply Same; reflexivity.
  - destruct (task_at_tasks l st i t id Ht Hi' Hp) as (u & _ & _ & -> & ->).
    exact (Save _ _ _ H).
  - destruct (task_at_tasks l st i t id Ht Hi' Hp) as (u & _ & _ & -> & ->).
    rewrite startEdit_task in H; injection H as <- <-; apply Same; reflexivity.
  - destruct (task_at_tasks l st i t id Ht Hi' Hp) as (u & _ & _ & -> & ->).
    rewrite (deleteTask_tasks l st _ Ht) in H; injection H as <- <-.
    eexists; split; [reflexivity | left; apply keys_filter].
Qed.

Lemma filter_all {A} (f : A -> bool) (l : list A) :
  (forall a, In a l -> f a = true) -> filter f l = l.
Proof.
  induction l as [|a l IH]; intros H; [reflexivity|]; cbn.
  rewrite (H a (or_introl eq_refl)), IH; [reflexivity|]; intros b Hb; apply H; right; exact Hb.
Qed.

Lemma filter_absent (l : list Task) (x : jsstr) :
  (forall t, In t l -> task_id t <> x) -> filter (fun t => negb (str_eqb (task_id t) x)) l = l.
Proof.
  intros H; apply filter_all; intros t Ht; rewrite str_eqb_neq by (apply H, Ht); reflexivity.
Qed.


Lemma radix_aux_length (k : nat) :
  forall (f : nat) (n : Z) (acc : jsstr), (k < f)%nat ->
  36 ^ Z.of_nat k <= n < 36 ^ Z.of_nat (S k) ->
  List.length (radix_aux 36 f n acc) = (S k + List.length acc)%nat.
Proof.
  induction k as [|k IH]; intros [|f] n acc Hf Hn; try lia.
  - cbn in Hn; cbn [radix_aux]; rewrite (proj2 (Z.ltb_lt n 36)) by lia; reflexivity.
  - cbn [radix_aux].
    assert (Hp : 36 ^ Z.of_nat (S k) = 36 * 36 ^ Z.of_nat k)
      by (rewrite Nat2Z.inj_succ, Z.pow_succ_r by lia; reflexivity).
    assert (Hp2 : 36 ^ Z.of_nat (S (S k)) = 36 * 36 ^ Z.of_nat (S k))
      by (rewrite (Nat2Z.inj_succ (S k)), Z.pow_succ_r by lia; reflexivity).
    assert (Hk : 0 < 36 ^ Z.of_nat k) by (apply Z.pow_pos_nonneg; lia).
    rewrite (proj2 (Z.ltb_ge n 36)) by lia.
    rewrite IH; [cbn [List.length]; lia | lia |].
    split.
    + apply Z.div_le_lower_bound; lia.
    + apply Z.div_lt_upper_bound; lia.
Qed.

(** ** Extra properties of the component *)

(** X1.  Throughout a session (first load on an empty storage, any user
    actions, any reloads), the last value written to [localStorage] is
    [JSON.stringify] of the current task list. *)
Theorem session_storage_synced (st : state) (H : session st) :
  last_write st = stringify (tasks st).
Proof. destruct (session_good st H) as (_ & _ & _ & Hw); exact Hw. Qed.

(** X2.  Throughout a session, the task list is an array of
    [{id, text, created_at}] records of JS strings, each text non-empty
    with no white space at either end. *)
Theorem session_tasks_records (st : state) (H : session st) :
  exists l, tasks st = list_json l /\ Forall task_ok l.
Proof. destruct (session_good st H) as (Ht & _); exact Ht. Qed.


(** X4.  Throughout a session the list renders without throwing: the
    counter shows the number of tasks, there is one row per task in order
    (the edit input holding [editingText] when [editingId === task.id],
    otherwise the task's text), and the empty-list item shows exactly when
    there is no task. *)
Theorem session_renders (st : state) (H : session st) :
  exists l, tasks st = list_json l /\
  view st = Some (int_to_string 10 (Z.of_nat (List.length l)),
                  map (fun u => if strict_eq (editingId st) (Val (JStr (task_id u)))
                                then REdit (editingText st)
                                else RView (Val (JStr (task_text u)))) l,
                  Nat.eqb (List.length l) 0).
Proof.
  destruct (session_good st H) as ((l & Ht & _) & _ & (s & He & _) & _).
  exists l; split; [exact Ht | apply view_tasks; [exact Ht | rewrite He; reflexivity]].
Qed.

(** X5.  If the stored text parses to a JSON value that is not an array
    (an object, a string, a number, [true]/[false] or [null]), it is
    installed on mount and the page then fails to render. *)
Theorem mount_non_array_breaks_render (raw : jsstr) (v : json)
    (Hp : parse_json raw = Some v) (Hv : forall l, v <> JArr l) :
  tasks (mount (Stored raw)) = v /\ view (mount (Stored raw)) = None.
Proof.
  destruct raw as [|c raw]; [discriminate|].
  unfold mount; cbv zeta beta iota; rewrite Hp.
  split; [reflexivity|].
  unfold view; cbn [tasks set_tasks].
  destruct v; try reflexivity; exfalso; eapply Hv; reflexivity.
Qed.

(** X6.  In a session, no user action reorders tasks or changes the id or
    [created_at] of a task: the [(id, created_at)] pairs after the action
    are a subsequence of those before, or the list before with exactly
    one task appended. *)
Theorem session_step_keys (st st' : state) (H : session st) (Hs : ui_step st st') :
  exists l l', tasks st = list_json l /\ tasks st' = list_json l'
    /\ (subseq (keys l') (keys l) \/ exists t, l' = l ++ [t]).
Proof.
  assert (Hg := session_good st H); pose proof Hg as ((l & Ht & _) & _).
  destruct (fires_keys l st st' Hg Ht (proj2 Hs)) as (l' & E & HK).
  exists l, l'; auto.
Qed.

(** X7.  [startEdit(task)] on a list of records turns into edit inputs
    (holding the task's text) exactly the rows whose id equals the task's
    id, all other rows showing their text; with distinct ids only that
    task's row is edited. *)
Theorem startEdit_rows (l : list Task) (st : state) (t : Task) :
  exists st', startEdit (task_json t) (with_tasks l st) = Some (Undef, st') /\
  view st' = Some (int_to_string 10 (Z.of_nat (List.length l)),
                   map (fun u => if str_eqb (task_id t) (task_id u)
                                 then REdit (Val (JStr (task_text t)))
                                 else RView (Val (JStr (task_text u)))) l,
                   Nat.eqb (List.length l) 0).
Proof.
  eexists; split; [apply startEdit_task|].
  rewrite (view_tasks l) by reflexivity; reflexivity.
Qed.

(** X8.  Enter or Escape in the edit input of a record list returns no
    value and leaves every row in display mode, each showing its text. *)
Theorem edit_key_closes_editor (l : list Task) (st : state) (i : jsval) (x s key : jsstr)
    (Hk : key = js "Enter" \/ key = js "Escape") :
  exists st' l',
    onEditKeyDown key (Val (JStr x)) (set_editing i (Val (JStr s)) (with_tasks l st))
      = Some (Undef, st')
    /\ tasks st' = list_json l'
    /\ view st' = Some (int_to_string 10 (Z.of_nat (List.length l')),
                        map (fun u => RView (Val (JStr (task_text u)))) l',
                        Nat.eqb (List.length l') 0).
Proof.
  destruct Hk as [-> | ->].
  - rewrite onEditKeyDown_enter, (saveEdit_tasks l _ x s) by reflexivity; cbn [then_].
    destruct (trim s) as [|c u].
    + exists (set_editing (Val JNull) (Val (JStr [])) (set_editing i (Val (JStr s)) (with_tasks l st))), l.
      split; [reflexivity|]; split; [reflexivity|].
      rewrite (view_tasks l) by reflexivity; reflexivity.
    + eexists; exists (map (edit_task x (c :: u)) l).
      split; [reflexivity|]; split; [reflexivity|].
      rewrite (view_tasks (map (edit_task x (c :: u)) l)) by reflexivity; reflexivity.
  - rewrite onEditKeyDown_escape; eexists; exists l.
    split; [reflexivity|]; split; [reflexivity|].
    rewrite (view_tasks l) by reflexivity; reflexivity.
Qed.

(** X9.  Starting to edit a task, typing any text into the edit input and
    pressing Escape restores the state from before the edit, except that
    the editing fields are reset: the list and the storage writes are
    unchanged. *)
Theorem escape_cancels_edit (l : list Task) (st : state) (t : Task) (v : jsstr) :
  then_ (startEdit (task_json t) (with_tasks l st))
    (fun st1 => then_ (Some (Undef, set_editing (editingId st1) (Val (JStr v)) st1))
    (fun st2 => onEditKeyDown (js "Escape") (Val (JStr (task_id t))) st2))
  = Some (Undef, set_editing (Val JNull) (Val (JStr [])) (with_tasks l st)).
Proof. rewrite startEdit_task; reflexivity. Qed.

(** X10.  Adding a text surrounded by white space has the same effect as
    adding the text itself, when that text is not blank. *)
Theorem add_ignores_padding (ws1 s ws2 : jsstr) (now : Z) (rnd : jsstr) (now2 : Z) (st : state)
    (H1 : Forall (fun c => is_js_space c = true) ws1)
    (H2 : Forall (fun c => is_js_space c = true) ws2)
    (Hs : trim s <> []) :
  add (ws1 ++ s ++ ws2) now rnd now2 st = add s now rnd now2 st.
Proof.
  unfold add, addTask; cbn [input set_input]; rewrite trim_pad by assumption.
  destruct (trim s) as [|c u]; [contradiction | reflexivity].
Qed.


(** X12.  Deleting an id that no task has leaves the list as it was, but
    the list is stored again. *)
Theorem delete_absent_id (l : list Task) (st : state) (x : jsstr)
    (H : forall t, In t l -> task_id t <> x) :
  deleteTask (Val (JStr x)) (with_tasks l st)
  = Some (Undef, set_tasks (list_json l) (with_tasks l st)).
Proof. rewrite (deleteTask_tasks l) by reflexivity; rewrite filter_absent by exact H; reflexivity. Qed.

(** X13.  For a clock value between 36^7 and 36^8 ms (mid-1972 to 2059)
    and a random string of at least 7 characters, [makeId] is 13
    characters long: 8 for the time, 5 for the random part. *)
Theorem makeId_length (now : Z) (rnd : jsstr)
    (Hnow : 36 ^ 7 <= now < 36 ^ 8) (Hrnd : (7 <= List.length rnd)%nat) :
  List.length (makeId now rnd) = 13%nat.
Proof.
  unfold makeId, to36, int_to_string, slice.
  rewrite (proj2 (Z.ltb_ge now 0)) by lia.
  rewrite length_app, length_firstn, length_skipn.
  assert (Hl : 7 <= Z.log2 now).
  { rewrite <- (Z.log2_pow2 7) by lia; apply Z.log2_le_mono; lia. }
  rewrite (radix_aux_length 7); [cbn [List.length]; lia | lia | cbn; lia].
Qed.

(** X14.  In the new-task input, a key other than Enter, or Enter while the
    input is blank, changes nothing: the typed text stays and nothing is
    stored. *)
Theorem input_key_noop (key : jsstr) (now : Z) (rnd : jsstr) (now2 : Z) (st : state)
    (H : key <> js "Enter" \/ trim (input st) = []) :
  onInputKeyDown key now rnd now2 st = Some (Undef, st).
Proof.
  unfold onInputKeyDown.
  destruct (str_eqb key (js "Enter")) eqn:E; [|reflexivity].
  apply str_eqb_eq in E; destruct H as [H | H]; [contradiction|].
  unfold addTask; rewrite H; reflexivity.
Qed.

(** ** Witnesses of the extra properties *)

Lemma session_typed : session typed.
Proof.
  apply (session_step (mount Absent) typed session_fresh).
  split; [eexists; reflexivity | apply fire_input, js_units].
Qed.

Lemma step_after_add : ui_step typed after_add.
Proof.
  split; [eexists; reflexivity|].
  apply (fire_add_button 1704067200000 (js "0.4fzyo82mvyr") 1704067200000 typed after_add Undef);
    [apply js_units | reflexivity].
Qed.

Lemma session_after_add : session after_add.
Proof. exact (session_step typed after_add session_typed step_after_add). Qed.

Lemma session_storage_synced_witness :
  session after_add /\ last_write after_add = stringify (tasks after_add).
Proof. split; [exact session_after_add | apply (session_storage_synced after_add session_after_add)]. Defined.

Lemma session_tasks_records_witness :
  session after_add /\ exists l, tasks after_add = list_json l /\ Forall task_ok l.
Proof. split; [exact session_after_add | apply (session_tasks_records after_add session_after_add)]. Defined.


Lemma session_renders_witness :
  session after_add /\
  exists l, tasks after_add = list_json l /\
  view after_add = Some (int_to_string 10 (Z.of_nat (List.length l)),
                  map (fun u => if strict_eq (editingId after_add) (Val (JStr (task_id u)))
                                then REdit (editingText after_add)
                                else RView (Val (JStr (task_text u)))) l,
                  Nat.eqb (List.length l) 0).
Proof. split; [exact session_after_add | apply (session_renders after_add session_after_add)]. Defined.

Lemma mount_non_array_breaks_render_witness :
  parse_json (jq "{'id':'a','text':'X'}")
    = Some (JObj [(js "id", JStr (js "a")); (js "text", JStr (js "X"))])
  /\ (forall l, JObj [(js "id", JStr (js "a")); (js "text", JStr (js "X"))] <> JArr l)
  /\ tasks (mount (Stored (jq "{'id':'a','text':'X'}")))
       = JObj [(js "id", JStr (js "a")); (js "text", JStr (js "X"))]
  /\ view (mount (Stored (jq "{'id':'a','text':'X'}"))) = None.
Proof.
  assert (Hp : parse_json (jq "{'id':'a','text':'X'}")
               = Some (JObj [(js "id", JStr (js "a")); (js "text", JStr (js "X"))]))
    by reflexivity.
  assert (Hv : forall l, JObj [(js "id", JStr (js "a")); (js "text", JStr (js "X"))] <> JArr l)
    by (intros l; discriminate).
  split; [exact Hp|]; split; [exact Hv|].
  apply (mount_non_array_breaks_render _ _ Hp Hv).
Defined.

Lemma session_step_keys_witness :
  session typed /\ ui_step typed after_add /\
  exists l l', tasks typed = list_json l /\ tasks after_add = list_json l'
    /\ (subseq (keys l') (keys l) \/ exists t, l' = l ++ [t]).
Proof.
  split; [exact session_typed|]; split; [exact step_after_add|].
  apply (session_step_keys typed after_add session_typed step_after_add).
Defined.

Lemma edit_key_closes_editor_witness :
  (js "Enter" = js "Enter" \/ js "Enter" = js "Escape") /\
  exists st' l',
    onEditKeyDown (js "Enter") (Val (JStr (js "a")))
      (set_editing (Val (JStr (js "a"))) (Val (JStr (js " Y "))) (with_tasks [task_a] initial_state))
      = Some (Undef, st')
    /\ tasks st' = list_json l'
    /\ view st' = Some (int_to_string 10 (Z.of_nat (List.length l')),
                        map (fun u => RView (Val (JStr (task_text u)))) l',
                        Nat.eqb (List.length l') 0).
Proof.
  split; [left; reflexivity|].
  apply (edit_key_closes_editor [task_a] initial_state (Val (JStr (js "a"))) (js "a") (js " Y ")
           (js "Enter") (or_introl eq_refl)).
Defined.

Lemma add_ignores_padding_witness :
  Forall (fun c => is_js_space c = true) (js " ")
  /\ Forall (fun c => is_js_space c = true) (js "  ")
  /\ trim (js "Buy milk") <> []
  /\ add (js " " ++ js "Buy milk" ++ js "  ") 1704067200000 (js "0.4fzyo82mvyr") 1704067200000 initial_state
     = add (js "Buy milk") 1704067200000 (js "0.4fzyo82mvyr") 1704067200000 initial_state.
Proof.
  assert (H1 : Forall (fun c => is_js_space c = true) (js " ")) by (repeat constructor).
  assert (H2 : Forall (fun c => is_js_space c = true) (js "  ")) by (repeat constructor).
  assert (Hs : trim (js "Buy milk") <> []) by (vm_compute; discriminate).
  split; [exact H1|]; split; [exact H2|]; split; [exact Hs|].
  apply (add_ignores_padding _ _ _ _ _ _ _ H1 H2 Hs).
Defined.


Lemma delete_absent_id_witness :
  (forall t, In t [task_a] -> task_id t <> js "b")
  /\ deleteTask (Val (JStr (js "b"))) (with_tasks [task_a] initial_state)
     = Some (Undef, set_tasks (list_json [task_a]) (with_tasks [task_a] initial_state)).
Proof.
  assert (H : forall t, In t [task_a] -> task_id t <> js "b").
  { intros t [<- | []]; vm_compute; discriminate. }
  split; [exact H | apply (delete_absent_id [task_a] initial_state _ H)].
Defined.

Lemma makeId_length_witness :
  (36 ^ 7 <= 1704067200000 < 36 ^ 8) /\ (7 <= List.length (js "0.4fzyo82mvyr"))%nat
  /\ List.length (makeId 1704067200000 (js "0.4fzyo82mvyr")) = 13%nat.
Proof.
  assert (Hn : 36 ^ 7 <= 1704067200000 < 36 ^ 8)
    by (split; [apply Z.leb_le | apply Z.ltb_lt]; reflexivity).
  assert (Hr : (7 <= List.length (js "0.4fzyo82mvyr"))%nat) by (apply Nat.leb_le; reflexivity).
  split; [exact Hn|]; split; [exact Hr | apply (makeId_length _ _ Hn Hr)].
Defined.

Lemma input_key_noop_witness :
  (js "a" <> js "Enter" \/ trim (input typed) = [])
  /\ onInputKeyDown (js "a") 1704067200000 (js "0.4fzyo82mvyr") 1704067200000 typed
     = Some (Undef, typed).
Proof.
  assert (H : js "a" <> js "Enter" \/ trim (input typed) = []) by (left; vm_compute; discriminate).
  split; [exact H | apply (input_key_noop _ _ _ _ _ H)].
Defined.

(** ** Deleting while a task is being edited *)

Lemma filter_filter_sub {A} (p q : A -> bool) (l : list A) :
  (forall a, p a = true -> q a = true) -> filter p (filter q l) = filter p l.
Proof.
  intros H; induction l as [|a l IH]; [reflexivity|]; cbn.
  destruct (q a) eqn:Eq; cbn; destruct (p a) eqn:Ep; rewrite ?Ep, ?IH; try reflexivity.
  rewrite (H a Ep) in Eq; discriminate.
Qed.

(** X15.  While the pointer is [Editing(x)], the page offers delete buttons
    only on the display rows, whose ids differ from [x]; such a delete
    leaves the pointer at [Editing(x)] and keeps, in order, every task
    with id [x]. *)
Theorem delete_while_editing (st st' : state) (x : jsstr) (i : nat) (t : json) (id : jsval)
    (r : jsval) (H : session st) (He : editingId st = Val (JStr x))
    (Ht : task_at st i = Some t) (Hp : prop t (js "id") = Some id)
    (Hm : strict_eq (editingId st) id = false)
    (Hd : deleteTask id st = Some (r, st')) :
  exists l l', tasks st = list_json l /\ tasks st' = list_json l'
    /\ editingId st' = Val (JStr x)
    /\ filter (fun u => str_eqb (task_id u) x) l' = filter (fun u => str_eqb (task_id u) x) l.
Proof.
  destruct (session_good st H) as ((l & Hl & _) & _).
  destruct (task_at_tasks l st i t id Hl Ht Hp) as (u & _ & _ & -> & ->).
  rewrite (deleteTask_tasks l st _ Hl) in Hd; injection Hd as <- <-.
  rewrite He in Hm; change (str_eqb x (task_id u) = false) in Hm.
  exists l, (filter (fun v => negb (str_eqb (task_id v) (task_id u))) l).
  split; [exact Hl|]; split; [reflexivity|]; split; [exact He|].
  apply filter_filter_sub; intros v Ev; apply str_eqb_eq in Ev; rewrite Ev, Hm; reflexivity.
Qed.

Lemma session_typed2 : session typed2.
Proof.
  apply (session_step after_add typed2 session_after_add).
  split; [eexists; reflexivity | apply fire_input, js_units].
Qed.

Lemma session_after_add2 : session after_add2.
Proof.
  apply (session_step typed2 after_add2 session_typed2).
  split; [eexists; reflexivity|].
  apply (fire_add_button 1704067200001 (js "0.abcdefgh") 1704067200001 typed2 after_add2 Undef);
    [apply js_units | reflexivity].
Qed.

Lemma session_editing2 : session editing2.
Proof.
  apply (session_step after_add2 editing2 session_after_add2).
  split; [eexists; reflexivity|].
  apply (fire_start_edit 0 first_task (Val (JStr (makeId 1704067200000 (js "0.4fzyo82mvyr"))))
           after_add2 editing2 Undef); reflexivity.
Qed.

Lemma delete_while_editing_witness :
  session editing2
  /\ editingId editing2 = Val (JStr (makeId 1704067200000 (js "0.4fzyo82mvyr")))
  /\ task_at editing2 1 = Some second_task
  /\ prop second_task (js "id") = Some (Val (JStr (makeId 1704067200001 (js "0.abcdefgh"))))
  /\ strict_eq (editingId editing2) (Val (JStr (makeId 1704067200001 (js "0.abcdefgh")))) = false
  /\ deleteTask (Val (JStr (makeId 1704067200001 (js "0.abcdefgh")))) editing2
     = Some (Undef, after_delete2)
  /\ exists l l', tasks editing2 = list_json l /\ tasks after_delete2 = list_json l'
    /\ editingId after_delete2 = Val (JStr (makeId 1704067200000 (js "0.4fzyo82mvyr")))
    /\ filter (fun u => str_eqb (task_id u) (makeId 1704067200000 (js "0.4fzyo82mvyr"))) l'
       = filter (fun u => str_eqb (task_id u) (makeId 1704067200000 (js "0.4fzyo82mvyr"))) l.
Proof.
  assert (He : editingId editing2 = Val (JStr (makeId 1704067200000 (js "0.4fzyo82mvyr"))))
    by reflexivity.
  assert (Ht : task_at editing2 1 = Some second_task) by reflexivity.
  assert (Hp : prop second_task (js "id")
               = Some (Val (JStr (makeId 1704067200001 (js "0.abcdefgh"))))) by reflexivity.
  assert (Hm : strict_eq (editingId editing2)
                 (Val (JStr (makeId 1704067200001 (js "0.abcdefgh")))) = false) by reflexivity.
  assert (Hd : deleteTask (Val (JStr (makeId 1704067200001 (js "0.abcdefgh")))) editing2
               = Some (Undef, after_delete2)) by reflexivity.
  split; [exact session_editing2|]; split; [exact He|]; split; [exact Ht|];
    split; [exact Hp|]; split; [exact Hm|]; split; [exact Hd|].
  apply (delete_while_editing editing2 after_delete2 _ 1 second_task _ Undef
           session_editing2 He Ht Hp Hm Hd).
Defined.
